(** * Market aggregation, peer similarity and lead ranking

    A shallow embedding of the computation shared by the three dashboards
    (app3: IT, app4: education, app5: construction): the per-city
    aggregation, the scale factors and Euclidean distance used to find
    peer cities, the ordering of the golden leads, and the percentage
    indicators.

    Conventions of the embedding.
    - A data-frame cell holding text is an [option string] where the
      source treats it as possibly null ([dropna], [count], [na=False]);
      [None] is the null value.
    - float64 and int64 columns are read as exact real numbers ([R]);
      counts are integers injected with [IZR].
    - A data frame carries the list of the column labels it has, so that a
      reference to an absent column raises [KeyError] as in the source.
    - [sort_values] is modelled by one sort that keeps rows with equal keys
      in their input order.  pandas guarantees that order only for a sort
      on several keys (the ranking of the leads); a sort on a single key
      uses its default kind, which may leave equal keys in any order; the
      modelled order is one of them, and a statement that depends on it
      says so.  For the peer cluster the sort is also taken as a parameter
      ([peer_cluster_by]), constrained only by what [sort_values] promises
      ([sorts_by_dist]). *)

From Stdlib Require Import List String Ascii Bool ZArith Reals Lra Lia.
From Stdlib Require Import Permutation Sorted.
Import ListNotations.

Open Scope R_scope.

(** ** Exceptions *)

Inductive error : Type :=
| KeyError (label : string)
| AttributeError (attr : string)
| ZeroDivisionError.

Inductive result (A : Type) : Type :=
| Ok (a : A)
| Raise (e : error).

Arguments Ok {A} a.
Arguments Raise {A} e.

Definition bind {A B : Type} (r : result A) (k : A -> result B) : result B :=
  match r with
  | Ok a => k a
  | Raise e => Raise e
  end.

Notation "x <- r ;; k" := (bind r (fun x => k))
  (at level 61, r at next level, right associativity).

(** ** Real comparisons as booleans *)

Definition Rltb (x y : R) : bool := if Rlt_dec x y then true else false.
Definition Rgtb (x y : R) : bool := Rltb y x.
Definition Reqb (x y : R) : bool := if Req_dec_T x y then true else false.

(** ** The fragment of pandas the dashboards use *)

Module Pandas.

Definition Series := list R.

(** [Series.max()]: the greatest value, [None] (NaN) on an empty series. *)
Fixpoint series_max (s : Series) : option R :=
  match s with
  | [] => None
  | x :: tl =>
      match series_max tl with
      | None => Some x
      | Some m => Some (Rmax x m)
      end
  end.

(** [Series.mean()] of a series: sum over length. *)
Definition series_sum (s : Series) : R := fold_right Rplus 0 s.
Definition series_mean (s : Series) : R := series_sum s / INR (List.length s).

(** Element-wise arithmetic of a series with a scalar or another series. *)
Definition series_sub (s : Series) (v : R) : Series := map (fun x => x - v) s.
Definition series_div (s : Series) (v : R) : Series := map (fun x => x / v) s.
Definition series_pow2 (s : Series) : Series := map (fun x => x ^ 2) s.
Definition series_add (s t : Series) : Series :=
  map (fun p => fst p + snd p) (combine s t).
Definition series_sqrt (s : Series) : Series := map sqrt s.

(** [sort_values]: insertion of each row before the first row that does not
    have to precede it.  [before x y] says that [x] has to come strictly
    before [y].  Rows that neither precede the other stay in input order;
    this is one of the orders pandas may give them. *)
Section Sort.
Context {A : Type}.
Variable before : A -> A -> bool.

Fixpoint insert_row (x : A) (l : list A) : list A :=
  match l with
  | [] => [x]
  | y :: tl => if before y x then y :: insert_row x tl else x :: y :: tl
  end.

Definition sort_values (l : list A) : list A := fold_right insert_row [] l.

End Sort.

(** [head(n)]. *)
Definition head {A : Type} (n : nat) (l : list A) : list A := firstn n l.

(** [dropna()] on a text column. *)
Fixpoint dropna (l : list (option string)) : list string :=
  match l with
  | [] => []
  | None :: tl => dropna tl
  | Some s :: tl => s :: dropna tl
  end.

(** [unique()]. *)
Definition unique (l : list string) : list string := nodup string_dec l.

(** A cell equals a label; a null cell equals nothing. *)
Definition cell_eqb (c : option string) (k : string) : bool :=
  match c with
  | Some s => String.eqb s k
  | None => false
  end.

(** [isin(values)] on a text cell. *)
Definition isin (c : option string) (values : list string) : bool :=
  existsb (cell_eqb c) values.

Definition notnull {A : Type} (c : option A) : bool :=
  match c with Some _ => true | None => false end.

(** [count]: the number of non-null cells. *)
Definition count {A : Type} (col : list (option A)) : Z :=
  Z.of_nat (List.length (filter notnull col)).

(** [sum] of a boolean column. *)
Definition sum_bool (col : list bool) : Z :=
  Z.of_nat (List.length (filter (fun b => b) col)).

(** [groupby(key)]: one group per distinct non-null key, groups in
    ascending key order, each holding its rows in frame order. *)
Definition group_keys (col : list (option string)) : list string :=
  sort_values String.ltb (unique (dropna col)).

Definition groupby {A : Type} (key : A -> option string) (rows : list A)
  : list (string * list A) :=
  map (fun k => (k, filter (fun r => cell_eqb (key r) k) rows))
      (group_keys (map key rows)).

End Pandas.

Import Pandas.

(** ** Company records and frames *)

(** One row of the snapshot, with a field for every column the dashboards
    read.  The id, geography, capital and age columns are in every
    snapshot; the others are optional, and the field of a column that the
    frame does not list in [columns] is never read. *)
Record Row : Type := mkRow {
  cnpj_completo : option string;
  uf_norm : option string;
  municipio_norm : option string;
  porte_descricao_norm : option string;
  natureza_juridica : string;
  segmento_educacional : option string;
  segmento_construcao : option string;
  tier_cliente : option string;
  qualidade_contato : option string;
  risco_operacional : option string;
  is_high_ticket : bool;          (* the 0/1 flag *)
  score_contato : R;
  capital_social : R;
  idade_empresa_anos : R
}.

Record DataFrame : Type := mkFrame {
  columns : list string;
  rows : list Row
}.

Definition has_column (label : string) (df : DataFrame) : bool :=
  existsb (String.eqb label) (columns df).

Definition empty (df : DataFrame) : bool :=
  match rows df with [] => true | _ => false end.

(** [df[mask]]: the rows selected by a boolean mask, same columns. *)
Definition select (mask : Row -> bool) (df : DataFrame) : DataFrame :=
  mkFrame (columns df) (filter mask (rows df)).

(** Python's true division; a zero divisor raises. *)
Definition truediv (x y : R) : result R :=
  if Reqb y 0 then Raise ZeroDivisionError else Ok (x / y).

(** [(vol / total * 100) if total > 0 else 0], the shape of every
    percentage indicator. *)
Definition percent (vol total : Z) : result R :=
  if (0 <? total)%Z
  then q <- truediv (IZR vol) (IZR total) ;; Ok (q * 100)
  else Ok 0.

(** A percentage indicator is computed without error, lies in [0, 100],
    and is 0 on an empty population. *)
Definition percentage_ok (df : DataFrame) (kpi : result R) : Prop :=
  exists p, kpi = Ok p /\ 0 <= p <= 100 /\ (rows df = [] -> p = 0).

(** [str.startswith] and [str.contains(pat, na=False)]. *)
Definition startswith (pat s : string) : bool := String.prefix pat s.

Definition contains (pat : string) (c : option string) : bool :=
  match c with
  | Some s => match String.index 0 pat s with Some _ => true | None => false end
  | None => false
  end.

(** ** Aggregated city matrix and the peer finder *)

(** A row of [city_matrix_full]: the city, its number of companies, and the
    second metric ([idade] in app3, [high_ticket] in app4 and app5). *)
Record CityRow : Type := mkCity {
  cm_municipio : string;
  cm_total : R;
  cm_metric : R
}.

Inductive Classificacao : Type :=
| AlvoAtual
| Similar.

(** A row of [peer_cluster]. *)
Record PeerRow : Type := mkPeer {
  pr_city : CityRow;
  dist_euclidiana : R;
  classificacao : Classificacao
}.

(** [col.max() if col.max() > 0 else 1]. *)
Definition max_or_one (col : Series) : R :=
  match series_max col with
  | Some m => if Rltb 0 m then m else 1
  | None => 1
  end.

(** The column [dist_euclidiana], computed on whole columns as the source
    does. *)
Definition dist_column (city_matrix_full : list CityRow)
  (val_total val_metric max_total max_metric : R) : Series :=
  series_sqrt
    (series_add
       (series_pow2
          (series_div (series_sub (map cm_total city_matrix_full) val_total)
                      max_total))
       (series_pow2
          (series_div (series_sub (map cm_metric city_matrix_full) val_metric)
                      max_metric))).

Definition sel_stats (city_matrix_full : list CityRow) (sel_cidade : string)
  : list CityRow :=
  filter (fun g => String.eqb (cm_municipio g) sel_cidade) city_matrix_full.

(** [city_matrix_full] with its new column, before sorting. *)
Definition with_dist (city_matrix_full : list CityRow) (target : CityRow)
  : list (CityRow * R) :=
  let val_total := cm_total target in
  let val_metric := cm_metric target in
  let max_total := max_or_one (map cm_total city_matrix_full) in
  let max_metric := max_or_one (map cm_metric city_matrix_full) in
  combine city_matrix_full
    (dist_column city_matrix_full val_total val_metric max_total max_metric).

Definition by_dist (a b : CityRow * R) : bool := Rltb (snd a) (snd b).

Definition classify (sel_cidade : string) (p : CityRow * R) : PeerRow :=
  mkPeer (fst p) (snd p)
    (if String.eqb (cm_municipio (fst p)) sel_cidade then AlvoAtual else Similar).

(** The block under [if not sel_stats.empty]; [None] when the selected
    city has no row in the matrix and nothing is drawn. *)
Definition peer_cluster (city_matrix_full : list CityRow) (sel_cidade : string)
  : option (list PeerRow) :=
  match sel_stats city_matrix_full sel_cidade with
  | [] => None
  | target :: _ =>
      Some (map (classify sel_cidade)
              (head 6 (sort_values by_dist (with_dist city_matrix_full target))))
  end.

(** The distance of one group as the specification writes it, to compare
    the column [dist_euclidiana] with. *)
Definition distance (target : CityRow) (scale1 scale2 : R) (g : CityRow) : R :=
  sqrt (((cm_total g - cm_total target) / scale1) ^ 2
        + ((cm_metric g - cm_metric target) / scale2) ^ 2).

(** The same block with the sort left open.  [sort_values('dist_euclidiana')]
    is called with pandas' default sort kind, which is not stable: the code
    fixes the result up to the order of rows at the same distance. *)
Definition peer_cluster_by (sorter : list (CityRow * R) -> list (CityRow * R))
  (city_matrix_full : list CityRow) (sel_cidade : string)
  : option (list PeerRow) :=
  match sel_stats city_matrix_full sel_cidade with
  | [] => None
  | target :: _ =>
      Some (map (classify sel_cidade)
              (head 6 (sorter (with_dist city_matrix_full target))))
  end.

(** What [sort_values('dist_euclidiana')] promises whatever its sort kind:
    the same rows, ascending by distance. *)
Definition sorts_by_dist (sorter : list (CityRow * R) -> list (CityRow * R))
  : Prop :=
  forall l, Permutation (sorter l) l /\
            StronglySorted (fun a b => snd a <= snd b) (sorter l).

(** The order for a sort by distance that puts a row after the rows at the
    same distance that follow it in the input. *)
Definition by_dist_ties_last (a b : CityRow * R) : bool :=
  negb (Rltb (snd b) (snd a)).

(** The value [v / s] that the distance compares, for a metric column of
    the baseline (section 4.2 of the specification; the source only forms
    differences of such values). *)
Definition normalized (col : Series) (v : R) : R := v / max_or_one col.

(** ** Lead ranker *)

(** [sort_values(by=keys, ascending=[False, ...])]: [a] has to precede [b]
    when the first key on which they differ is greater in [a]. *)
Fixpoint lex_desc (by_keys : list (Row -> R)) (a b : Row) : bool :=
  match by_keys with
  | [] => false
  | k :: rest =>
      Rgtb (k a) (k b) || (Reqb (k a) (k b) && lex_desc rest a b)
  end.

Definition sort_desc (by_keys : list (Row -> R)) (l : list Row) : list Row :=
  sort_values (lex_desc by_keys) l.

(** The order the ranker is specified by: [a] may stand before [b]. *)
Fixpoint lex_ge (by_keys : list (Row -> R)) (a b : Row) : Prop :=
  match by_keys with
  | [] => True
  | k :: rest => k a > k b \/ (k a = k b /\ lex_ge rest a b)
  end.

(** The keys the ranker orders a frame by. *)
Definition ranking_keys (df : DataFrame) : list (Row -> R) :=
  if has_column "score_contato" df
  then [capital_social; score_contato; idade_empresa_anos]
  else [capital_social; idade_empresa_anos].

(** The two-key comparator (capital, age) of the specification. *)
Definition two_key_sort (l : list Row) : list Row :=
  sort_desc [capital_social; idade_empresa_anos] l.

(** ** Aggregator *)

(** [groupby(key).agg(total=('cnpj_completo','count'),
    idade=('idade_empresa_anos','mean'))]. *)
Definition agg_count_mean (key : Row -> option string) (l : list Row)
  : list CityRow :=
  map (fun g => mkCity (fst g)
                  (IZR (count (map cnpj_completo (snd g))))
                  (series_mean (map idade_empresa_anos (snd g))))
      (groupby key l).

(** [groupby(key).agg(total=('cnpj_completo','count'),
    high_ticket=('is_high_ticket','sum'))]. *)
Definition agg_count_ht (key : Row -> option string) (l : list Row)
  : list CityRow :=
  map (fun g => mkCity (fst g)
                  (IZR (count (map cnpj_completo (snd g))))
                  (IZR (sum_bool (map is_high_ticket (snd g)))))
      (groupby key l).

(** A record is counted in its group when neither its group key nor its
    company id is null. *)
Definition counted (key : Row -> option string) (r : Row) : bool :=
  notnull (key r) && notnull (cnpj_completo r).

(** One aggregate per distinct key present in the population. *)
Definition one_aggregate_per_key (key : Row -> option string) (l : list Row)
  (m : list CityRow) : Prop :=
  NoDup (map cm_municipio m) /\
  forall k, In k (map cm_municipio m) <-> exists r, In r l /\ key r = Some k.

(** A row of the three-metric matrices of app4 and app5. *)
Record HubRow : Type := mkHub {
  hub_key : string;
  total_empresas : R;
  leads_high_ticket : R;
  idade_media_anos : R
}.

Definition agg_hub (key : Row -> option string) (l : list Row) : list HubRow :=
  map (fun g => mkHub (fst g)
                  (IZR (count (map cnpj_completo (snd g))))
                  (IZR (sum_bool (map is_high_ticket (snd g))))
                  (series_mean (map idade_empresa_anos (snd g))))
      (groupby key l).

(** What the first tab computes, by selection state. *)
Inductive Tab1 (E M : Type) : Type :=
| Expansion (expansion_data : list E)
| Matrix (city_matrix : list M)
| Peers (peers : option (list PeerRow)).

Arguments Expansion {E M} expansion_data.
Arguments Matrix {E M} city_matrix.
Arguments Peers {E M} peers.

(** ** Sidebar *)

(** What the user picked in the sidebar widgets. *)
Record Widgets : Type := mkWidgets {
  pick_uf : string;
  pick_cidade : string;
  pick_porte : list string;
  pick_segmento : list string;
  pick_tier : list string
}.

(** The state and city selection common to the three sidebars. *)
Definition geo_filter (df : DataFrame) (w : Widgets) : DataFrame * string :=
  if String.eqb (pick_uf w) "Todos" then (df, "Todas"%string)
  else
    let df_filtered := select (fun r => cell_eqb (uf_norm r) (pick_uf w)) df in
    if String.eqb (pick_cidade w) "Todas" then (df_filtered, pick_cidade w)
    else (select (fun r => cell_eqb (municipio_norm r) (pick_cidade w)) df_filtered,
          pick_cidade w).

(** A multiselect over an optional column: applied when the snapshot has
    the column and the selection is not empty. *)
Definition category_filter (label : string) (field : Row -> option string)
  (picked : list string) (df df_filtered : DataFrame) : DataFrame :=
  if has_column label df then
    match picked with
    | [] => df_filtered
    | _ => select (fun r => isin (field r) picked) df_filtered
    end
  else df_filtered.

(** [df[df.uf_norm != 'sp'] if 'sp' in df.uf_norm.values else df]. *)
Definition df_expansion (df : DataFrame) : DataFrame :=
  if existsb (fun r => cell_eqb (uf_norm r) "sp") (rows df)
  then select (fun r => negb (cell_eqb (uf_norm r) "sp")) df
  else df.

Definition by_total_desc (a b : CityRow) : bool := Rgtb (cm_total a) (cm_total b).

(** * app3: IT sector *)

Module App3.

Definition sidebar_filters (df : DataFrame) (w : Widgets)
  : DataFrame * string * string :=
  let (df_filtered, sel_cidade) := geo_filter df w in
  (category_filter "porte_descricao_norm" porte_descricao_norm (pick_porte w)
     df df_filtered,
   pick_uf w, sel_cidade).

Definition perc_ltda (df_filtered : DataFrame) : result R :=
  let total := Z.of_nat (List.length (rows df_filtered)) in
  if has_column "natureza_juridica" df_filtered then
    let ltda_mask := fun r => startswith "2" (natureza_juridica r) in
    percent (Z.of_nat (List.length (filter ltda_mask (rows df_filtered)))) total
  else Ok 0.

Definition expansion_data (df : DataFrame) : list CityRow :=
  head 10 (sort_values by_total_desc
             (agg_count_mean uf_norm (rows (df_expansion df)))).

(** The aggregation of the state view, and the 20 rows that are drawn. *)
Definition city_matrix (df_filtered : DataFrame) : list CityRow :=
  agg_count_mean municipio_norm (rows df_filtered).

Definition city_matrix_top (df_filtered : DataFrame) : list CityRow :=
  head 20 (sort_values by_total_desc (city_matrix df_filtered)).

Definition df_state_baseline (df : DataFrame) (sel_uf : string) : DataFrame :=
  select (fun r => cell_eqb (uf_norm r) sel_uf) df.

Definition city_matrix_full (df : DataFrame) (sel_uf : string) : list CityRow :=
  agg_count_mean municipio_norm (rows (df_state_baseline df sel_uf)).

Definition tab1 (df df_filtered : DataFrame) (sel_uf sel_cidade : string)
  : Tab1 CityRow CityRow :=
  if String.eqb sel_uf "Todos" && String.eqb sel_cidade "Todas" then
    Expansion (expansion_data df)
  else if negb (String.eqb sel_uf "Todos") && String.eqb sel_cidade "Todas" then
    Matrix (city_matrix_top df_filtered)
  else
    Peers (peer_cluster (city_matrix_full df sel_uf) sel_cidade).

Definition df_leads (df_filtered : DataFrame) : list Row :=
  sort_desc [capital_social; idade_empresa_anos] (rows df_filtered).

(** The rows of the report table in [generate_pdf]. *)
Definition pdf_leads (df_city : DataFrame) : list Row :=
  head 15 (sort_desc [capital_social; idade_empresa_anos] (rows df_city)).

Record Page : Type := mkPage {
  kpi_perc_ltda : R;
  view_tab1 : Tab1 CityRow CityRow;
  preview_leads : list Row
}.

(** [main]: [None] when the filtered frame is empty and the page stops at
    the warning.  The page modelled here is the indicator row, the first
    tab and the table of leads.  The tabs in between are not part of it:
    when a city is selected the second tab reads the column [bairro_norm]
    without a guard, so the source then raises [KeyError] on a frame
    without that column whatever this function returns. *)
Definition main (df : DataFrame) (w : Widgets) : option (result Page) :=
  let '(df_filtered, sel_uf, sel_cidade) := sidebar_filters df w in
  if empty df_filtered then None
  else Some (p <- perc_ltda df_filtered ;;
             Ok (mkPage p (tab1 df df_filtered sel_uf sel_cidade)
                   (head 50 (df_leads df_filtered)))).

End App3.

(** ** Optional columns *)

(** A [groupby(...).agg(...)] that names [label] needs the column. *)
Definition require_column (label : string) (df : DataFrame) : result unit :=
  if has_column label df then Ok tt else Raise (KeyError label).

Definition set_is_high_ticket (b : bool) (r : Row) : Row :=
  mkRow (cnpj_completo r) (uf_norm r) (municipio_norm r)
    (porte_descricao_norm r) (natureza_juridica r) (segmento_educacional r)
    (segmento_construcao r) (tier_cliente r) (qualidade_contato r)
    (risco_operacional r) b (score_contato r) (capital_social r)
    (idade_empresa_anos r).

(** The guard of the national view:
    [if 'is_high_ticket' not in df.columns:
       df['is_high_ticket'] = df.get('tier_cliente', '').isin(premium).astype(int)].
    Without the tier column [get] yields the text [''], which has no
    [isin]. *)
Definition ensure_high_ticket (premium : list string) (df : DataFrame)
  : result DataFrame :=
  if has_column "is_high_ticket" df then Ok df
  else if has_column "tier_cliente" df then
    Ok (mkFrame (columns df ++ ["is_high_ticket"%string])
          (map (fun r => set_is_high_ticket (isin (tier_cliente r) premium) r)
               (rows df)))
  else Raise (AttributeError "isin").

Definition by_hub_total_desc (a b : HubRow) : bool :=
  Rgtb (total_empresas a) (total_empresas b).

Definition by_hub_ht_desc (a b : HubRow) : bool :=
  Rgtb (leads_high_ticket a) (leads_high_ticket b).

(** The ranking of app4 and app5: the contact score is a key only when the
    frame has the column. *)
Definition ranked_leads (df_filtered : DataFrame) : list Row :=
  if has_column "score_contato" df_filtered then
    sort_desc [capital_social; score_contato; idade_empresa_anos]
      (rows df_filtered)
  else
    sort_desc [capital_social; idade_empresa_anos] (rows df_filtered).

(** The peer view of app4 and app5. *)
Definition peers_high_ticket (df : DataFrame) (sel_uf sel_cidade : string)
  : result (option (list PeerRow)) :=
  let df_state_baseline := select (fun r => cell_eqb (uf_norm r) sel_uf) df in
  _ <- require_column "is_high_ticket" df_state_baseline ;;
  let city_matrix_full := agg_count_ht municipio_norm (rows df_state_baseline) in
  Ok (peer_cluster city_matrix_full sel_cidade).

(** The state view of app4 and app5. *)
Definition hub_matrix (df_filtered : DataFrame) : result (list HubRow) :=
  _ <- require_column "is_high_ticket" df_filtered ;;
  Ok (agg_hub municipio_norm (rows df_filtered)).

Definition high_ticket_perc (df_filtered : DataFrame) : result R :=
  let total := Z.of_nat (List.length (rows df_filtered)) in
  if has_column "is_high_ticket" df_filtered then
    let high_ticket_vol := sum_bool (map is_high_ticket (rows df_filtered)) in
    percent high_ticket_vol total
  else Ok 0.

(** * app4: education sector *)

Module App4.

Definition premium : list string :=
  ["Corporate (Colégios/Faculdades)"%string;
   "Key Account (Grupos Educacionais)"%string].

Definition sidebar_filters (df : DataFrame) (w : Widgets)
  : DataFrame * string * string :=
  let (df_filtered, sel_cidade) := geo_filter df w in
  let df_filtered :=
    category_filter "segmento_educacional" segmento_educacional
      (pick_segmento w) df df_filtered in
  let df_filtered :=
    category_filter "tier_cliente" tier_cliente (pick_tier w) df df_filtered in
  (df_filtered, pick_uf w, sel_cidade).

Definition ouro_perc (df_filtered : DataFrame) : result R :=
  let total := Z.of_nat (List.length (rows df_filtered)) in
  if has_column "qualidade_contato" df_filtered then
    let ouro :=
      filter (fun r => cell_eqb (qualidade_contato r) "Ouro (Tel+Email)")
        (rows df_filtered) in
    percent (Z.of_nat (List.length ouro)) total
  else Ok 0.

Definition expansion_data (df : DataFrame) : result (list HubRow) :=
  d <- ensure_high_ticket premium (df_expansion df) ;;
  Ok (head 10 (sort_values by_hub_ht_desc (agg_hub uf_norm (rows d)))).

Definition city_matrix (df_filtered : DataFrame) : result (list HubRow) :=
  m <- hub_matrix df_filtered ;;
  Ok (head 20 (sort_values by_hub_total_desc m)).

Definition tab1 (df df_filtered : DataFrame) (sel_uf sel_cidade : string)
  : result (Tab1 HubRow HubRow) :=
  if String.eqb sel_uf "Todos" && String.eqb sel_cidade "Todas" then
    e <- expansion_data df ;; Ok (Expansion e)
  else if negb (String.eqb sel_uf "Todos") && String.eqb sel_cidade "Todas" then
    m <- city_matrix df_filtered ;; Ok (Matrix m)
  else
    p <- peers_high_ticket df sel_uf sel_cidade ;; Ok (Peers p).

Definition df_leads (df_filtered : DataFrame) : list Row :=
  ranked_leads df_filtered.

Definition pdf_leads (df_city : DataFrame) : list Row :=
  head 15 (ranked_leads df_city).

Record Page : Type := mkPage {
  kpi_high_ticket_perc : R;
  kpi_ouro_perc : R;
  view_tab1 : Tab1 HubRow HubRow;
  preview_leads : list Row
}.

(** [main], with the same extent as in app3: the indicator row, the first
    tab and the table of leads; the unguarded read of [bairro_norm] in the
    second tab is outside it. *)
Definition main (df : DataFrame) (w : Widgets) : option (result Page) :=
  let '(df_filtered, sel_uf, sel_cidade) := sidebar_filters df w in
  if empty df_filtered then None
  else Some (h <- high_ticket_perc df_filtered ;;
             o <- ouro_perc df_filtered ;;
             t <- tab1 df df_filtered sel_uf sel_cidade ;;
             Ok (mkPage h o t (head 50 (df_leads df_filtered)))).

End App4.

(** * app5: construction sector *)

Module App5.

Definition premium : list string :=
  ["Grande Porte (Incorporadora)"%string;
   "Infraestrutura / Obras Públicas (>10M)"%string].

Definition sidebar_filters (df : DataFrame) (w : Widgets)
  : DataFrame * string * string :=
  let (df_filtered, sel_cidade) := geo_filter df w in
  (category_filter "segmento_construcao" segmento_construcao
     (pick_segmento w) df df_filtered,
   pick_uf w, sel_cidade).

Definition alto_risco_perc (df_filtered : DataFrame) : result R :=
  let total := Z.of_nat (List.length (rows df_filtered)) in
  if has_column "risco_operacional" df_filtered then
    let alto_risco :=
      filter (fun r => contains "Alto Risco" (risco_operacional r))
        (rows df_filtered) in
    percent (Z.of_nat (List.length alto_risco)) total
  else Ok 0.

Definition expansion_data (df : DataFrame) : result (list CityRow) :=
  d <- ensure_high_ticket premium (df_expansion df) ;;
  Ok (head 10 (sort_values by_total_desc (agg_count_ht uf_norm (rows d)))).

Definition city_matrix (df_filtered : DataFrame) : result (list HubRow) :=
  m <- hub_matrix df_filtered ;;
  Ok (head 20 (sort_values by_hub_total_desc m)).

Definition tab1 (df df_filtered : DataFrame) (sel_uf sel_cidade : string)
  : result (Tab1 CityRow HubRow) :=
  if String.eqb sel_uf "Todos" && String.eqb sel_cidade "Todas" then
    e <- expansion_data df ;; Ok (Expansion e)
  else if negb (String.eqb sel_uf "Todos") && String.eqb sel_cidade "Todas" then
    m <- city_matrix df_filtered ;; Ok (Matrix m)
  else
    p <- peers_high_ticket df sel_uf sel_cidade ;; Ok (Peers p).

Definition df_leads (df_filtered : DataFrame) : list Row :=
  ranked_leads df_filtered.

Definition pdf_leads (df_city : DataFrame) : list Row :=
  head 15 (ranked_leads df_city).

Record Page : Type := mkPage {
  kpi_alto_risco_perc : R;
  kpi_high_ticket_perc : R;
  view_tab1 : Tab1 CityRow HubRow;
  preview_leads : list Row
}.

(** [main], with the same extent as in app3: the indicator row, the first
    tab and the table of leads; the unguarded read of [bairro_norm] in the
    second tab is outside it. *)
Definition main (df : DataFrame) (w : Widgets) : option (result Page) :=
  let '(df_filtered, sel_uf, sel_cidade) := sidebar_filters df w in
  if empty df_filtered then None
  else Some (a <- alto_risco_perc df_filtered ;;
             h <- high_ticket_perc df_filtered ;;
             t <- tab1 df df_filtered sel_uf sel_cidade ;;
             Ok (mkPage a h t (head 50 (df_leads df_filtered)))).

End App5.

(** What a run of [main] shows in the first tab: nothing when the page
    stopped at the empty-frame warning, else the view or the exception that
    ended the run. *)
Definition shown3 (page : option (result App3.Page))
  : option (result (Tab1 CityRow CityRow)) :=
  option_map (fun r => p <- r ;; Ok (App3.view_tab1 p)) page.

Definition shown4 (page : option (result App4.Page))
  : option (result (Tab1 HubRow HubRow)) :=
  option_map (fun r => p <- r ;; Ok (App4.view_tab1 p)) page.

Definition shown5 (page : option (result App5.Page))
  : option (result (Tab1 CityRow HubRow)) :=
  option_map (fun r => p <- r ;; Ok (App5.view_tab1 p)) page.

(** * The rest of the pages *)

(** ** Sidebar options *)

(** [[str(x) for x in df[col].dropna().unique().tolist()]], then
    [["Todos"] + sorted(...)]. *)
Definition lista_ufs (df : DataFrame) : list string :=
  unique (dropna (map uf_norm (rows df))).

Definition opts_uf (df : DataFrame) : list string :=
  "Todos"%string :: sort_values String.ltb (lista_ufs df).

(** [list.index]: the first position of [x]; [None] stands for the
    [ValueError] of an absent value. *)
Fixpoint index_of (x : string) (l : list string) : option nat :=
  match l with
  | [] => None
  | y :: tl =>
      if String.eqb y x then Some 0%nat
      else match index_of x tl with
           | Some i => Some (S i)
           | None => None
           end
  end.

(** [opts_uf.index('sp') if 'sp' in opts_uf else 0]. *)
Definition default_uf_idx (df : DataFrame) : option nat :=
  if existsb (String.eqb "sp") (opts_uf df)
  then index_of "sp" (opts_uf df)
  else Some 0%nat.

(** The city options, offered once a state is selected. *)
Definition lista_cidades (df : DataFrame) (sel_uf : string) : list string :=
  unique (dropna (map municipio_norm
                    (rows (select (fun r => cell_eqb (uf_norm r) sel_uf) df)))).

Definition opts_cidade (df : DataFrame) (sel_uf : string) : list string :=
  "Todas"%string :: sort_values String.ltb (lista_cidades df sel_uf).

(** What the sidebars keep, record by record: the geographic selection and
    one category filter. *)
Definition geo_ok (w : Widgets) (r : Row) : bool :=
  String.eqb (pick_uf w) "Todos"
  || (cell_eqb (uf_norm r) (pick_uf w)
      && (String.eqb (pick_cidade w) "Todas"
          || cell_eqb (municipio_norm r) (pick_cidade w))).

Definition category_ok (label : string) (field : Row -> option string)
  (picked : list string) (df : DataFrame) (r : Row) : bool :=
  negb (has_column label df)
  || match picked with [] => true | _ => isin (field r) picked end.

(** ** Counting the values of a column *)

(** [unique()] in order of first appearance. *)
Fixpoint unique_first (l : list string) : list string :=
  match l with
  | [] => []
  | x :: tl => x :: filter (fun y => negb (String.eqb y x)) (unique_first tl)
  end.

Definition occurrences (k : string) (col : list (option string)) : nat :=
  List.length (filter (fun c => cell_eqb c k) col).

Definition by_count_desc (a b : string * Z) : bool := (snd b <? snd a)%Z.

(** [Series.value_counts()]: one entry per distinct non-null value with
    the number of cells that hold it, most frequent first. *)
Definition value_counts (col : list (option string)) : list (string * Z) :=
  sort_values by_count_desc
    (map (fun k => (k, Z.of_nat (occurrences k col)))
         (unique_first (dropna col))).

(** Second tab of app3, on the column [bairro_norm] of the filtered frame:
    [df[df.bairro_norm != 'nao_informado'].bairro_norm.value_counts().head(15)].
    A null cell differs from the sentinel and is kept by the mask. *)
Definition bairros_top (bairro_norm : list (option string))
  : list (string * Z) :=
  head 15 (value_counts
             (filter (fun c => negb (cell_eqb c "nao_informado")) bairro_norm)).

(** Third tab: the size chart of app3 and the tier chart of app4 and app5,
    drawn when the frame has the column. *)
Definition porte_counts (df_filtered : DataFrame) : option (list (string * Z)) :=
  if has_column "porte_descricao_norm" df_filtered
  then Some (value_counts (map porte_descricao_norm (rows df_filtered)))
  else None.

Definition tier_counts (df_filtered : DataFrame) : option (list (string * Z)) :=
  if has_column "tier_cliente" df_filtered
  then Some (value_counts (map tier_cliente (rows df_filtered)))
  else None.

(** ** Summary indicators and report table *)

(** [df_filtered['idade_empresa_anos'].mean()]. *)
Definition idade_media (df_filtered : DataFrame) : R :=
  series_mean (map idade_empresa_anos (rows df_filtered)).

(** The body of the report table in [generate_pdf]: one line saying that
    no lead was found, or one line per lead. *)
Inductive PdfTable : Type :=
| NoLeadFound
| LeadLines (df_leads : list Row).

Definition pdf_table (df_leads : list Row) : PdfTable :=
  match df_leads with
  | [] => NoLeadFound
  | _ => LeadLines df_leads
  end.

(** What [generate_pdf] puts in the report: the number of qualified leads
    of the header ([len(df_city)]) and the table. *)
Record Pdf : Type := mkPdf {
  leads_qualificados : nat;
  tabela : PdfTable
}.

Definition generate_pdf3 (df_city : DataFrame) : Pdf :=
  mkPdf (List.length (rows df_city)) (pdf_table (App3.pdf_leads df_city)).

Definition generate_pdf4 (df_city : DataFrame) : Pdf :=
  mkPdf (List.length (rows df_city)) (pdf_table (App4.pdf_leads df_city)).

Definition generate_pdf5 (df_city : DataFrame) : Pdf :=
  mkPdf (List.length (rows df_city)) (pdf_table (App5.pdf_leads df_city)).

(** The call of [generate_pdf] in the fourth tab of app3: none when the
    page stopped at the empty-frame warning, none while no city is
    selected (the button is disabled). *)
Definition report3 (df : DataFrame) (w : Widgets) : option Pdf :=
  let '(df_filtered, sel_uf, sel_cidade) := App3.sidebar_filters df w in
  if empty df_filtered then None
  else if negb (String.eqb sel_cidade "Todas")
       then Some (generate_pdf3 df_filtered)
       else None.

(** ** Notions used to state the properties of the pages *)

(** The selection a sidebar returns. *)
Definition selection (w : Widgets) : string * string :=
  (pick_uf w,
   if String.eqb (pick_uf w) "Todos" then "Todas"%string else pick_cidade w).

(** [top] holds the [n] rows of [all] with the greatest key: it is sorted
    descending, it is as long as [n] allows, and no row left out has a
    greater key than a row kept. *)
Definition top_rows {A : Type} (key : A -> R) (n : nat) (all top : list A)
  : Prop :=
  List.length top = Nat.min n (List.length all) /\
  (forall g, In g top -> In g all) /\
  StronglySorted (fun a b => key a >= key b) top /\
  (forall g h, In g top -> In h all -> ~ In h top -> key h <= key g).

(** Rows with equal values under all the keys. *)
Definition same_keys (keys : list (Row -> R)) (a b : Row) : bool :=
  forallb (fun k => Reqb (k a) (k b)) keys.

(** The sum of the counts of a table. *)
Definition sum_counts (t : list (string * Z)) : Z :=
  fold_right Z.add 0%Z (map snd t).

(** [Series.median()]: the middle value of the sorted column, the mean of
    the two middle values when their number is even, [None] (NaN) on an
    empty column. *)
Definition series_median (col : Series) : option R :=
  let s := sort_values Rltb col in
  let n := List.length s in
  match n with
  | O => None
  | _ =>
      if Nat.even n
      then Some ((nth (n / 2 - 1) s 0 + nth (n / 2) s 0) / 2)
      else Some (nth (n / 2) s 0)
  end.

(** [df_filtered['capital_social'].median()]. *)
Definition mediana_cap (df_filtered : DataFrame) : option R :=
  series_median (map capital_social (rows df_filtered)).

(** Values not above, and not below, [m]. *)
Definition at_most (m : R) (x : R) : bool := negb (Rltb m x).
Definition at_least (m : R) (x : R) : bool := negb (Rltb x m).

(** The kind of view the selection calls for. *)
Definition view_matches {E M : Type} (w : Widgets) (t : Tab1 E M) : Prop :=
  match t with
  | Expansion _ => pick_uf w = "Todos"%string
  | Matrix _ =>
      pick_uf w <> "Todos"%string /\ pick_cidade w = "Todas"%string
  | Peers _ =>
      pick_uf w <> "Todos"%string /\ pick_cidade w <> "Todas"%string
  end.

(** * Concrete snapshots and selections *)

Module Scenario.

(** A company with the given id, state, city, age and capital; the other
    cells do not matter to the views it is used in. *)
Definition firm (cnpj uf cidade : option string) (idade capital : R) : Row :=
  mkRow cnpj uf cidade None "2062" None None None None None false 0
    capital idade.

Definition in_sp (cnpj cidade : string) : Row :=
  firm (Some cnpj) (Some "sp"%string) (Some cidade) 5 1000.

Definition it_columns : list string :=
  ["cnpj_completo"; "uf_norm"; "municipio_norm"; "porte_descricao_norm";
   "natureza_juridica"; "capital_social"; "idade_empresa_anos"]%string.

(** Seven cities of one state, each with one company of the same age. *)
Definition seven_cities : DataFrame :=
  mkFrame it_columns
    [in_sp "01" "a"; in_sp "02" "b"; in_sp "03" "c"; in_sp "04" "d";
     in_sp "05" "e"; in_sp "06" "f"; in_sp "07" "g"].

Definition seven_matrix : list CityRow :=
  [mkCity "a" 1 5; mkCity "b" 1 5; mkCity "c" 1 5; mkCity "d" 1 5;
   mkCity "e" 1 5; mkCity "f" 1 5; mkCity "g" 1 5].

(** The baseline of section 8: A and C with 10 companies of mean age 2,
    B with 4 companies of mean age 8. *)
Definition baseline : list CityRow :=
  [mkCity "A" 10 2; mkCity "B" 4 8; mkCity "C" 10 2].

(** One company of the state whose city cell is null. *)
Definition null_city : DataFrame :=
  mkFrame it_columns [firm (Some "01"%string) (Some "sp"%string) None 5 1000].

(** An education snapshot that carries the tier but not the high-ticket
    flag nor the contact score. *)
Definition edu_columns : list string :=
  ["cnpj_completo"; "uf_norm"; "municipio_norm"; "segmento_educacional";
   "tier_cliente"; "capital_social"; "idade_empresa_anos"]%string.

Definition school (cnpj cidade segmento tier : string) : Row :=
  mkRow (Some cnpj) (Some "sp"%string) (Some cidade) None "2062"
    (Some segmento) None (Some tier) None None false 0 1000 5.

Definition no_flag : DataFrame :=
  mkFrame edu_columns
    [school "01" "a" "Ensino Superior" "Key Account (Grupos Educacionais)";
     school "02" "b" "Ensino Infantil" "Micro (Varejo)"].

(** Three IT companies of two sizes in two cities of the state. *)
Definition it_firm (cnpj cidade porte : string) (idade capital : R) : Row :=
  mkRow (Some cnpj) (Some "sp"%string) (Some cidade) (Some porte) "2062"
    None None None None None false 0 capital idade.

Definition two_portes : DataFrame :=
  mkFrame it_columns
    [it_firm "01" "a" "MICRO EMPRESA" 3 1000;
     it_firm "02" "a" "DEMAIS" 12 50000;
     it_firm "03" "b" "DEMAIS" 7 2000].

(** Sidebar states: the default state view, and a city with two settings
    of the category filters. *)
Definition state_view : Widgets := mkWidgets "sp" "Todas" [] [] [].
Definition national_view : Widgets := mkWidgets "Todos" "Todas" [] [] [].
Definition city_all : Widgets := mkWidgets "sp" "a" [] [] [].
Definition city_micro : Widgets :=
  mkWidgets "sp" "a" ["MICRO EMPRESA"%string] ["Ensino Superior"%string]
    ["Key Account (Grupos Educacionais)"%string].

End Scenario.

(** * Further snapshots *)

Module Examples.

(** An education snapshot of one state other than SP, with the tier column
    and without the high-ticket flag. *)
Definition escola (cnpj cidade tier : string) : Row :=
  mkRow (Some cnpj) (Some "rj"%string) (Some cidade) None "2062"
    (Some "Ensino Superior"%string) None (Some tier) None None false 0 1000 5.

Definition edu_rj : DataFrame :=
  mkFrame Scenario.edu_columns
    [escola "01" "a" "Key Account (Grupos Educacionais)";
     escola "02" "b" "Micro (Varejo)"].

End Examples.

(** * Properties *)

(** ** Boolean comparisons of reals *)

Lemma Rltb_true (x y : R) : Rltb x y = true <-> x < y.
Proof.
  unfold Rltb. destruct (Rlt_dec x y); split; intros; try easy; lra.
Qed.

Lemma Rltb_false (x y : R) : Rltb x y = false <-> y <= x.
Proof.
  unfold Rltb. destruct (Rlt_dec x y); split; intros; try easy; lra.
Qed.

Lemma Reqb_true (x y : R) : Reqb x y = true <-> x = y.
Proof.
  unfold Reqb. destruct (Req_dec_T x y); split; intros; easy.
Qed.

Lemma Reqb_false (x y : R) : Reqb x y = false <-> x <> y.
Proof.
  unfold Reqb. destruct (Req_dec_T x y); split; intros; easy.
Qed.

(** ** [sort_values] *)

Section SortFacts.
Context {A : Type}.
Variable before : A -> A -> bool.

Lemma insert_row_perm (x : A) (l : list A) :
  Permutation (insert_row before x l) (x :: l).
Proof.
  induction l as [|y tl IH]; simpl.
  - apply Permutation_refl.
  - destruct (before y x).
    + apply perm_trans with (y :: x :: tl).
      * now apply perm_skip.
      * apply perm_swap.
    + apply Permutation_refl.
Qed.

Lemma sort_values_perm (l : list A) : Permutation (sort_values before l) l.
Proof.
  induction l as [|x tl IH]; simpl.
  - apply perm_nil.
  - apply perm_trans with (x :: sort_values before tl).
    + apply insert_row_perm.
    + now apply perm_skip.
Qed.

Lemma sort_values_length (l : list A) :
  List.length (sort_values before l) = List.length l.
Proof. apply Permutation_length, sort_values_perm. Qed.

Lemma sort_values_In (l : list A) (x : A) :
  In x (sort_values before l) <-> In x l.
Proof.
  split; apply Permutation_in;
    [apply sort_values_perm | apply Permutation_sym, sort_values_perm].
Qed.

(** Sortedness, for an order [le] that [before] decides. *)
Variable le : A -> A -> Prop.
Hypothesis before_le : forall a b, before a b = true -> le a b.
Hypothesis not_before_le : forall a b, before a b = false -> le b a.
Hypothesis le_trans : forall a b c, le a b -> le b c -> le a c.

Lemma insert_row_sorted (x : A) (l : list A) :
  StronglySorted le l -> StronglySorted le (insert_row before x l).
Proof.
  induction 1 as [|y tl Hs IH Hy]; simpl.
  - constructor; constructor.
  - destruct (before y x) eqn:E.
    + constructor; [exact IH|].
      apply Forall_forall. intros z Hz.
      apply (Permutation_in _ (insert_row_perm x tl)) in Hz.
      destruct Hz as [<-|Hz].
      * now apply before_le.
      * rewrite Forall_forall in Hy. now apply Hy.
    + constructor; [now constructor|].
      apply not_before_le in E.
      constructor; [exact E|].
      apply Forall_forall. intros z Hz.
      rewrite Forall_forall in Hy. eapply le_trans; [exact E | now apply Hy].
Qed.

Lemma sort_values_sorted (l : list A) : StronglySorted le (sort_values before l).
Proof.
  induction l as [|x tl IH]; simpl.
  - constructor.
  - now apply insert_row_sorted.
Qed.

End SortFacts.

Lemma head_In {A : Type} (n : nat) (l : list A) (x : A) :
  In x (head n l) -> In x l.
Proof.
  intros H. rewrite <- (firstn_skipn n l). apply in_or_app. now left.
Qed.

Lemma head_length {A : Type} (n : nat) (l : list A) :
  List.length (head n l) = Nat.min n (List.length l).
Proof. apply length_firstn. Qed.

(** ** Normalizer *)

Lemma series_max_spec (col : Series) (M : R) :
  series_max col = Some M -> In M col /\ Forall (fun v => v <= M) col.
Proof.
  revert M. induction col as [|x tl IH]; intros M; simpl; [discriminate|].
  destruct (series_max tl) as [m|] eqn:E.
  - intros [= <-]. destruct (IH m eq_refl) as [Hin Hall].
    unfold Rmax. destruct (Rle_dec x m) as [Hle|Hgt].
    + split; [now right|]. constructor; [exact Hle | exact Hall].
    + split; [now left|]. constructor; [lra|].
      eapply Forall_impl; [|exact Hall]. simpl. intros; lra.
  - intros [= <-]. destruct tl; [|simpl in E; destruct (series_max tl); discriminate].
    split; [now left|]. constructor; [lra | constructor].
Qed.

Lemma series_max_some (col : Series) :
  col <> [] -> exists M, series_max col = Some M.
Proof.
  destruct col as [|x tl]; [easy|]. intros _. simpl.
  destruct (series_max tl); eauto.
Qed.

Lemma max_or_one_pos (col : Series) : 0 < max_or_one col.
Proof.
  unfold max_or_one. destruct (series_max col) as [m|]; [|lra].
  destruct (Rltb 0 m) eqn:E; [now apply Rltb_true in E | lra].
Qed.

Lemma max_or_one_max (col : Series) (M : R) :
  series_max col = Some M -> 0 < M -> max_or_one col = M.
Proof.
  intros E H. unfold max_or_one. rewrite E.
  apply Rltb_true in H. now rewrite H.
Qed.

Lemma max_or_one_degenerate (col : Series) (M : R) :
  series_max col = Some M -> M <= 0 -> max_or_one col = 1.
Proof.
  intros E H. unfold max_or_one. rewrite E.
  apply Rltb_false in H. now rewrite H.
Qed.

(** The metric columns of the aggregated matrices are non-negative: counts
    and sums of flags always, mean ages when the ages are. *)
Lemma series_sum_nonneg (col : Series) :
  Forall (fun v => 0 <= v) col -> 0 <= series_sum col.
Proof.
  unfold series_sum. induction 1 as [|v tl Hv _ IH]; simpl; lra.
Qed.

Lemma series_mean_nonneg (col : Series) :
  Forall (fun v => 0 <= v) col -> 0 <= series_mean col.
Proof.
  intros H. unfold series_mean. destruct col as [|v tl].
  - simpl. unfold Rdiv. rewrite Rmult_0_l. lra.
  - apply Rmult_le_pos; [now apply series_sum_nonneg|].
    left. apply Rinv_0_lt_compat. apply lt_0_INR. simpl. lia.
Qed.

Lemma count_nonneg {A : Type} (col : list (option A)) : 0 <= IZR (count col).
Proof. apply IZR_le. unfold count. lia. Qed.

Lemma sum_bool_nonneg (col : list bool) : 0 <= IZR (sum_bool col).
Proof. apply IZR_le. unfold sum_bool. lia. Qed.

Lemma agg_columns_nonneg (key : Row -> option string) (l : list Row) :
  Forall (fun r => 0 <= idade_empresa_anos r) l ->
  Forall (fun v => 0 <= v) (map cm_total (agg_count_mean key l)) /\
  Forall (fun v => 0 <= v) (map cm_metric (agg_count_mean key l)) /\
  Forall (fun v => 0 <= v) (map cm_total (agg_count_ht key l)) /\
  Forall (fun v => 0 <= v) (map cm_metric (agg_count_ht key l)).
Proof.
  intros Hage. unfold agg_count_mean, agg_count_ht, groupby.
  rewrite !map_map. cbn [cm_total cm_metric fst snd].
  repeat split; apply Forall_forall; intros v Hv; apply in_map_iff in Hv;
    destruct Hv as [k [<- _]].
  - apply count_nonneg.
  - apply series_mean_nonneg. apply Forall_forall. intros a Ha.
    apply in_map_iff in Ha. destruct Ha as [r [<- Hr]].
    apply filter_In in Hr. rewrite Forall_forall in Hage. now apply Hage.
  - apply count_nonneg.
  - apply sum_bool_nonneg.
Qed.

(** The maximum of a column, described without [series_max]. *)
Lemma column_has_max (col : Series) :
  col <> [] -> exists M, In M col /\ Forall (fun v => v <= M) col.
Proof.
  intros H. destruct (series_max_some col H) as [M E].
  exists M. now apply series_max_spec.
Qed.

Lemma max_or_one_of_max (col : Series) (M : R) :
  In M col -> Forall (fun v => v <= M) col ->
  (0 < M -> max_or_one col = M) /\ (M <= 0 -> max_or_one col = 1).
Proof.
  intros HinM Hle.
  destruct (series_max_some col) as [M' E].
  { intros N. now rewrite N in HinM. }
  destruct (series_max_spec col M' E) as [HinM' Hle'].
  assert (EM : M' = M).
  { rewrite Forall_forall in Hle, Hle'.
    pose proof (Hle M' HinM'). pose proof (Hle' M HinM). lra. }
  subst M'. split; intros H.
  - now apply max_or_one_max.
  - now apply max_or_one_degenerate with M.
Qed.

(** C5 — Every non-empty metric column of the baseline (counts, sums of
    flags and means of non-negative ages are non-negative) has a maximum
    [M]: a member of the column that no member exceeds.  The scale factor
    is [M], except that it is 1 when [M = 0]; when [M = 0] normalized
    values equal raw values; every member of the column normalizes into
    [0, 1]; and when [M > 0] the member achieving [M] normalizes to
    exactly 1.  No case divides by zero: the scale factor is always
    positive. *)
Theorem normalizer_scale (col : Series) :
  col <> [] ->
  Forall (fun v => 0 <= v) col ->
  exists M,
    (In M col /\ Forall (fun v => v <= M) col) /\
    0 < max_or_one col /\
    (M <> 0 -> max_or_one col = M) /\
    (M = 0 -> max_or_one col = 1 /\ forall v, normalized col v = v) /\
    (forall v, In v col -> 0 <= normalized col v <= 1) /\
    (0 < M -> normalized col M = 1).
Proof.
  intros Hne Hpos.
  destruct (column_has_max col Hne) as [M [HinM Hle]]. exists M.
  destruct (max_or_one_of_max col M HinM Hle) as [Spos Sdeg].
  assert (HM : 0 <= M) by (rewrite Forall_forall in Hpos; now apply Hpos).
  split; [now split|].
  split; [apply max_or_one_pos|].
  split; [intros N; apply Spos; lra|].
  split.
  - intros ->. rewrite Sdeg by lra.
    split; [reflexivity|]. intros v. unfold normalized.
    rewrite Sdeg by lra. field.
  - split.
    + intros v Hv. unfold normalized.
      assert (H0 : 0 <= v) by (rewrite Forall_forall in Hpos; now apply Hpos).
      assert (H1 : v <= M) by (rewrite Forall_forall in Hle; now apply Hle).
      destruct (Rle_lt_dec M 0) as [Hz|Hp].
      * rewrite (Sdeg Hz). replace v with 0 by lra. lra.
      * rewrite (Spos Hp). split.
        -- apply Rmult_le_pos; [exact H0|]. left. now apply Rinv_0_lt_compat.
        -- apply Rmult_le_reg_r with M; [exact Hp|].
           unfold Rdiv. rewrite Rmult_assoc, Rinv_l by lra. lra.
    + intros Hp. unfold normalized. rewrite (Spos Hp). field. lra.
Qed.

Lemma normalizer_scale_witness :
  max_or_one [10; 4; 10; 7; 2] = 10 /\ normalized [10; 4; 10; 7; 2] 10 = 1.
Proof.
  assert (N : [10; 4; 10; 7; 2] <> []) by discriminate.
  assert (P : Forall (fun v => 0 <= v) [10; 4; 10; 7; 2]).
  { repeat constructor; lra. }
  destruct (normalizer_scale [10; 4; 10; 7; 2] N P)
    as [M [[HinM Hle] [_ [Hs [_ [_ H1]]]]]].
  assert (E : M = 10).
  { apply Forall_inv in Hle. simpl in HinM.
    repeat (destruct HinM as [HinM|HinM]; [lra|]). contradiction. }
  subst M. split; [apply Hs; lra | apply H1; lra].
Defined.

(** ** Peer finder *)

Lemma dist_column_pointwise (m : list CityRow)
  (val_total val_metric max_total max_metric : R) :
  dist_column m val_total val_metric max_total max_metric =
  map (fun g => sqrt (((cm_total g - val_total) / max_total) ^ 2
                      + ((cm_metric g - val_metric) / max_metric) ^ 2)) m.
Proof.
  unfold dist_column, series_sqrt, series_add, series_pow2, series_div,
    series_sub.
  induction m as [|g tl IH]; [reflexivity|].
  cbn [map combine fst snd]. f_equal. exact IH.
Qed.

Lemma combine_map_self {A B : Type} (f : A -> B) (l : list A) :
  combine l (map f l) = map (fun a => (a, f a)) l.
Proof. induction l as [|a tl IH]; [reflexivity|]. simpl. now rewrite IH. Qed.

Lemma with_dist_pointwise (m : list CityRow) (target : CityRow) :
  with_dist m target =
  map (fun g => (g, distance target (max_or_one (map cm_total m))
                      (max_or_one (map cm_metric m)) g)) m.
Proof.
  unfold with_dist. rewrite dist_column_pointwise. apply combine_map_self.
Qed.

Lemma with_dist_length (m : list CityRow) (target : CityRow) :
  List.length (with_dist m target) = List.length m.
Proof. rewrite with_dist_pointwise. apply length_map. Qed.


Lemma distance_self (target : CityRow) (s1 s2 : R) (g : CityRow) :
  cm_total g = cm_total target -> cm_metric g = cm_metric target ->
  distance target s1 s2 g = 0.
Proof.
  intros E1 E2. unfold distance. rewrite E1, E2.
  replace (_ + _) with 0; [apply sqrt_0|].
  unfold Rdiv. rewrite !Rminus_diag. ring.
Qed.

Lemma sel_stats_In (m : list CityRow) (sel : string) (target : CityRow)
  (rest : list CityRow) :
  sel_stats m sel = target :: rest -> In target m /\ cm_municipio target = sel.
Proof.
  intros E. assert (H : In target (sel_stats m sel)) by (rewrite E; now left).
  unfold sel_stats in H. apply filter_In in H. destruct H as [H1 H2].
  split; [exact H1 | now apply String.eqb_eq].
Qed.

(** C1 — When the selected city has a row [target] in the baseline matrix,
    each metric column of the baseline has a maximum ([M1] and [M2]: a
    member of the column that no member exceeds), and the column of
    distances pairs every group [g] of the baseline, in baseline order, with
    sqrt(((total g - total target)/scale1)^2 + ((metric g - metric target)/scale2)^2),
    where scale1 and scale2 are two numbers fixed by the baseline alone
    (the same for every candidate): scale_i is the maximum of its column
    when that maximum is positive, and 1 otherwise. *)
Theorem peer_distance_formula (m : list CityRow) (sel : string)
  (target : CityRow) (rest : list CityRow) :
  sel_stats m sel = target :: rest ->
  exists M1 M2 scale1 scale2 : R,
    (In M1 (map cm_total m) /\ Forall (fun v => v <= M1) (map cm_total m)) /\
    (In M2 (map cm_metric m) /\ Forall (fun v => v <= M2) (map cm_metric m)) /\
    (0 < M1 -> scale1 = M1) /\ (M1 <= 0 -> scale1 = 1) /\
    (0 < M2 -> scale2 = M2) /\ (M2 <= 0 -> scale2 = 1) /\
    with_dist m target = map (fun g => (g, distance target scale1 scale2 g)) m /\
    peer_cluster m sel =
      Some (map (classify sel)
              (head 6 (sort_values by_dist
                         (map (fun g => (g, distance target scale1 scale2 g)) m)))).
Proof.
  intros E.
  destruct (sel_stats_In m sel target rest E) as [Hin _].
  destruct (column_has_max (map cm_total m)) as [M1 [I1 L1]].
  { intros N. apply map_eq_nil in N. now rewrite N in Hin. }
  destruct (column_has_max (map cm_metric m)) as [M2 [I2 L2]].
  { intros N. apply map_eq_nil in N. now rewrite N in Hin. }
  destruct (max_or_one_of_max _ M1 I1 L1) as [P1 D1].
  destruct (max_or_one_of_max _ M2 I2 L2) as [P2 D2].
  exists M1, M2, (max_or_one (map cm_total m)), (max_or_one (map cm_metric m)).
  split; [now split|]. split; [now split|].
  split; [exact P1|]. split; [exact D1|]. split; [exact P2|]. split; [exact D2|].
  split.
  - apply with_dist_pointwise.
  - unfold peer_cluster. rewrite E. now rewrite with_dist_pointwise.
Qed.

(** [head] and [map] keep a list sorted. *)
Lemma StronglySorted_head {A : Type} (le : A -> A -> Prop) (n : nat)
  (l : list A) : StronglySorted le l -> StronglySorted le (head n l).
Proof.
  unfold head. revert n. induction l as [|x tl IH]; intros n H.
  - now rewrite firstn_nil.
  - destruct n as [|n]; [constructor|]. simpl.
    apply StronglySorted_inv in H. destruct H as [Hs Hx].
    constructor; [now apply IH|].
    apply Forall_forall. intros y Hy. rewrite Forall_forall in Hx.
    apply Hx. now apply (head_In n).
Qed.

Lemma StronglySorted_map {A B : Type} (f : A -> B) (leA : A -> A -> Prop)
  (leB : B -> B -> Prop) (l : list A) :
  (forall a b, leA a b -> leB (f a) (f b)) ->
  StronglySorted leA l -> StronglySorted leB (map f l).
Proof.
  intros Hf. induction 1 as [|x tl Hs IH Hx]; simpl; constructor; [exact IH|].
  apply Forall_forall. intros y Hy. apply in_map_iff in Hy.
  destruct Hy as [z [<- Hz]]. rewrite Forall_forall in Hx. now apply Hf, Hx.
Qed.

Lemma by_dist_sorted (l : list (CityRow * R)) :
  StronglySorted (fun a b => snd a <= snd b) (sort_values by_dist l).
Proof.
  apply sort_values_sorted; unfold by_dist.
  - intros a b H. apply Rltb_true in H. lra.
  - intros a b H. now apply Rltb_false in H.
  - intros a b c. lra.
Qed.


(** ** Evaluating the sort on concrete rows *)

Ltac decide_Rltb :=
  repeat match goal with
  | |- context [Rltb ?a ?b] =>
      first [ replace (Rltb a b) with true by (symmetry; apply Rltb_true; lra)
            | replace (Rltb a b) with false by (symmetry; apply Rltb_false; lra) ]
  end.

Ltac run_sort :=
  unfold by_dist;
  repeat (progress (cbn [map sort_values fold_right insert_row snd fst
                         Scenario.seven_matrix Scenario.baseline];
                    decide_Rltb)).

Ltac max_of_column :=
  simpl; f_equal; unfold Rmax; repeat (destruct (Rle_dec _ _); try lra).

Lemma series_mean_single (x : R) : series_mean [x] = x.
Proof. unfold series_mean, series_sum. simpl. field. Qed.

Lemma with_dist_all_zero (m : list CityRow) (target : CityRow) :
  Forall (fun g => cm_total g = cm_total target /\
                   cm_metric g = cm_metric target) m ->
  with_dist m target = map (fun g => (g, 0)) m.
Proof.
  intros H. rewrite with_dist_pointwise. apply map_ext_in. intros g Hg.
  rewrite Forall_forall in H. destruct (H g Hg) as [E1 E2].
  now rewrite distance_self.
Qed.

Lemma scenario_peers :
  peer_cluster Scenario.baseline "C" =
  Some [mkPeer (mkCity "A" 10 2) 0 Similar;
        mkPeer (mkCity "C" 10 2) 0 AlvoAtual;
        mkPeer (mkCity "B" 4 8) (sqrt (9225 / 10000)) Similar].
Proof.
  unfold peer_cluster.
  cbn [sel_stats Scenario.baseline filter cm_municipio String.eqb Ascii.eqb
       Bool.eqb].
  rewrite with_dist_pointwise.
  assert (E1 : max_or_one (map cm_total Scenario.baseline) = 10).
  { apply max_or_one_max; [max_of_column | lra]. }
  assert (E2 : max_or_one (map cm_metric Scenario.baseline) = 8).
  { apply max_or_one_max; [max_of_column | lra]. }
  rewrite E1, E2. cbn [map Scenario.baseline].
  rewrite (distance_self _ 10 8 (mkCity "A" 10 2)) by reflexivity.
  rewrite (distance_self _ 10 8 (mkCity "C" 10 2)) by reflexivity.
  assert (EB : distance (mkCity "C" 10 2) 10 8 (mkCity "B" 4 8)
               = sqrt (9225 / 10000)).
  { unfold distance. cbn [cm_total cm_metric]. f_equal. field. }
  rewrite EB.
  assert (HB : 0 < sqrt (9225 / 10000)) by (apply sqrt_lt_R0; lra).
  set (dB := sqrt (9225 / 10000)) in *.
  run_sort. reflexivity.
Qed.

Lemma filter_map_comm {A B : Type} (f : A -> B) (p : B -> bool) (l : list A) :
  filter p (map f l) = map f (filter (fun a => p (f a)) l).
Proof.
  induction l as [|a tl IH]; [reflexivity|]. simpl.
  destruct (p (f a)); simpl; now rewrite IH.
Qed.

Lemma sqrt_scenario_bounds : 0.960 < sqrt (9225 / 10000) < 0.961.
Proof.
  split.
  - replace 0.960 with (sqrt (0.960 * 0.960)) by (apply sqrt_square; lra).
    apply sqrt_lt_1_alt. lra.
  - replace 0.961 with (sqrt (0.961 * 0.961)) by (apply sqrt_square; lra).
    apply sqrt_lt_1_alt. lra.
Qed.

(** ** The order of rows at the same distance *)

Lemma stable_sorts_by_dist : sorts_by_dist (sort_values by_dist).
Proof.
  intros l. split; [apply sort_values_perm | apply by_dist_sorted].
Qed.

Lemma ties_last_sorts_by_dist : sorts_by_dist (sort_values by_dist_ties_last).
Proof.
  intros l. split; [apply sort_values_perm|].
  apply sort_values_sorted; unfold by_dist_ties_last.
  - intros a b H. apply negb_true_iff, Rltb_false in H. exact H.
  - intros a b H. apply negb_false_iff, Rltb_true in H. lra.
  - intros a b c. lra.
Qed.

Lemma scenario_with_dist :
  with_dist Scenario.baseline (mkCity "C" 10 2)
  = [(mkCity "A" 10 2, 0); (mkCity "B" 4 8, sqrt (9225 / 10000));
     (mkCity "C" 10 2, 0)].
Proof.
  rewrite with_dist_pointwise.
  assert (E1 : max_or_one (map cm_total Scenario.baseline) = 10).
  { apply max_or_one_max; [max_of_column | lra]. }
  assert (E2 : max_or_one (map cm_metric Scenario.baseline) = 8).
  { apply max_or_one_max; [max_of_column | lra]. }
  rewrite E1, E2. cbn [map Scenario.baseline].
  rewrite (distance_self _ 10 8 (mkCity "A" 10 2)) by reflexivity.
  rewrite (distance_self _ 10 8 (mkCity "C" 10 2)) by reflexivity.
  assert (EB : distance (mkCity "C" 10 2) 10 8 (mkCity "B" 4 8)
               = sqrt (9225 / 10000)).
  { unfold distance. cbn [cm_total cm_metric]. f_equal. field. }
  now rewrite EB.
Qed.

(** A sorted rearrangement of two rows at distance 0 and one farther row
    ends with the farther row. *)
Lemma sorted_three (a b c : CityRow * R) (s : list (CityRow * R)) :
  snd a = 0 -> snd c = 0 -> 0 < snd b ->
  Permutation s [a; b; c] ->
  StronglySorted (fun x y => snd x <= snd y) s ->
  exists x y, s = [x; y; b] /\ Permutation [x; y] [a; c].
Proof.
  intros Ha Hc Hb P S.
  pose proof (Permutation_length P) as L.
  destruct s as [|p [|q [|r [|]]]]; try discriminate L. clear L.
  assert (Hr : r = b).
  { assert (Ib : In b [p; q; r])
      by (apply (Permutation_in _ (Permutation_sym P)); simpl; tauto).
    assert (Ir : In r [a; b; c]) by (apply (Permutation_in _ P); simpl; tauto).
    apply StronglySorted_inv in S. destruct S as [S Hp].
    apply StronglySorted_inv in S. destruct S as [_ Hq].
    apply Forall_inv_tail, Forall_inv in Hp. apply Forall_inv in Hq.
    simpl in Ib, Ir.
    destruct Ir as [<-|[<-|[<-|[]]]]; [|reflexivity|];
      destruct Ib as [E|[E|[E|[]]]]; subst; lra. }
  subst r. exists p, q. split; [reflexivity|].
  assert (P' : Permutation (b :: [p; q]) (b :: [a; c])).
  { apply perm_trans with [p; q; b].
    - change [p; q; b] with ([p; q] ++ [b]). apply Permutation_cons_append.
    - apply perm_trans with [a; b; c]; [exact P | apply perm_swap]. }
  now apply Permutation_cons_inv in P'.
Qed.

Lemma scenario_any_sort (sorter : list (CityRow * R) -> list (CityRow * R)) :
  sorts_by_dist sorter ->
  exists x y,
    peer_cluster_by sorter Scenario.baseline "C"
    = Some [x; y; mkPeer (mkCity "B" 4 8) (sqrt (9225 / 10000)) Similar] /\
    Permutation [x; y]
      [mkPeer (mkCity "A" 10 2) 0 Similar; mkPeer (mkCity "C" 10 2) 0 AlvoAtual].
Proof.
  intros H. unfold peer_cluster_by.
  cbn [sel_stats Scenario.baseline filter cm_municipio String.eqb Ascii.eqb
       Bool.eqb].
  rewrite scenario_with_dist.
  destruct (H [(mkCity "A" 10 2, 0); (mkCity "B" 4 8, sqrt (9225 / 10000));
               (mkCity "C" 10 2, 0)]) as [P S].
  assert (HB : 0 < sqrt (9225 / 10000)) by (apply sqrt_lt_R0; lra).
  destruct (sorted_three (mkCity "A" 10 2, 0) (mkCity "B" 4 8, sqrt (9225 / 10000))
              (mkCity "C" 10 2, 0) _ eq_refl eq_refl HB P S)
    as [x [y [-> Pxy]]].
  exists (classify "C" x), (classify "C" y). split; [reflexivity|].
  change [classify "C" x; classify "C" y] with (map (classify "C") [x; y]).
  change [mkPeer (mkCity "A" 10 2) 0 Similar; mkPeer (mkCity "C" 10 2) 0 AlvoAtual]
    with (map (classify "C") [(mkCity "A" 10 2, 0); (mkCity "C" 10 2, 0)]).
  now apply Permutation_map.
Qed.

Lemma scenario_ties_last :
  peer_cluster_by (sort_values by_dist_ties_last) Scenario.baseline "C"
  = Some [mkPeer (mkCity "C" 10 2) 0 AlvoAtual;
          mkPeer (mkCity "A" 10 2) 0 Similar;
          mkPeer (mkCity "B" 4 8) (sqrt (9225 / 10000)) Similar].
Proof.
  unfold peer_cluster_by.
  cbn [sel_stats Scenario.baseline filter cm_municipio String.eqb Ascii.eqb
       Bool.eqb].
  rewrite scenario_with_dist.
  assert (HB : 0 < sqrt (9225 / 10000)) by (apply sqrt_lt_R0; lra).
  set (dB := sqrt (9225 / 10000)) in *.
  unfold by_dist_ties_last.
  repeat (progress (cbn [map sort_values fold_right insert_row snd fst negb];
                    decide_Rltb)).
  reflexivity.
Qed.

Lemma sorted_by_any_sort (sorter : list (CityRow * R) -> list (CityRow * R))
  (m : list CityRow) (sel : string) (res : list PeerRow) :
  sorts_by_dist sorter ->
  peer_cluster_by sorter m sel = Some res ->
  StronglySorted (fun a b => dist_euclidiana a <= dist_euclidiana b) res.
Proof.
  intros H. unfold peer_cluster_by.
  destruct (sel_stats m sel) as [|target rest]; [discriminate|].
  intros E.
  assert (R' : res = map (classify sel) (head 6 (sorter (with_dist m target))))
    by congruence.
  subst res. apply StronglySorted_map with (leA := fun a b => snd a <= snd b).
  - intros a b Hab. exact Hab.
  - apply StronglySorted_head, H.
Qed.

(** C6 (as amended) — Whatever sort [sort_values] runs, the cluster is
    ascending by distance, so groups at the same distance are adjacent;
    their relative order is not fixed by the code.  In the scenario of
    section 8 (baseline A, B, C; target C tied with A at distance 0) the
    cluster is A and C at distance 0, in either order, C tagged as the
    target, then B at sqrt(0.9225), about 0.9605: a sort that keeps ties in
    input order gives A, C, B and a sort that reverses them gives
    C, A, B. *)
Theorem peer_ties_order_not_fixed :
  (forall sorter, sorts_by_dist sorter ->
     (forall m sel res, peer_cluster_by sorter m sel = Some res ->
        StronglySorted (fun a b => dist_euclidiana a <= dist_euclidiana b) res) /\
     exists x y,
       peer_cluster_by sorter Scenario.baseline "C"
       = Some [x; y; mkPeer (mkCity "B" 4 8) (sqrt (9225 / 10000)) Similar] /\
       Permutation [x; y]
         [mkPeer (mkCity "A" 10 2) 0 Similar;
          mkPeer (mkCity "C" 10 2) 0 AlvoAtual]) /\
  (forall m sel, peer_cluster m sel = peer_cluster_by (sort_values by_dist) m sel) /\
  sorts_by_dist (sort_values by_dist) /\
  peer_cluster_by (sort_values by_dist) Scenario.baseline "C"
  = Some [mkPeer (mkCity "A" 10 2) 0 Similar;
          mkPeer (mkCity "C" 10 2) 0 AlvoAtual;
          mkPeer (mkCity "B" 4 8) (sqrt (9225 / 10000)) Similar] /\
  sorts_by_dist (sort_values by_dist_ties_last) /\
  peer_cluster_by (sort_values by_dist_ties_last) Scenario.baseline "C"
  = Some [mkPeer (mkCity "C" 10 2) 0 AlvoAtual;
          mkPeer (mkCity "A" 10 2) 0 Similar;
          mkPeer (mkCity "B" 4 8) (sqrt (9225 / 10000)) Similar] /\
  0.960 < sqrt (9225 / 10000) < 0.961.
Proof.
  split.
  { intros sorter H. split.
    - intros m sel res. now apply sorted_by_any_sort.
    - now apply scenario_any_sort. }
  split; [reflexivity|].
  split; [exact stable_sorts_by_dist|].
  split; [exact scenario_peers|].
  split; [exact ties_last_sorts_by_dist|].
  split; [exact scenario_ties_last | exact sqrt_scenario_bounds].
Qed.

(** C6, as stated, fails on its own scenario.  No sort by distance gives
    C at 0, A at 0, B at 0.958, because B is at sqrt(0.9225); and the sort
    that keeps ties in baseline order, which C6 asks for, lists A before
    the target C. *)
Lemma scenario_result_not_as_claimed :
  ~ (exists sorter, sorts_by_dist sorter /\
       option_map (map (fun r => (cm_municipio (pr_city r), dist_euclidiana r)))
         (peer_cluster_by sorter Scenario.baseline "C")
       = Some [("C"%string, 0); ("A"%string, 0); ("B"%string, 0.958)]) /\
  option_map (map (fun r => cm_municipio (pr_city r)))
    (peer_cluster Scenario.baseline "C")
  <> Some ["C"; "A"; "B"]%string.
Proof.
  split.
  - intros [sorter [H E]].
    destruct (scenario_any_sort sorter H) as [x [y [Ex _]]].
    rewrite Ex in E.
    apply (f_equal (fun o => match o with
                             | Some l => nth 2 (map snd l) 0
                             | None => 0
                             end)) in E.
    cbn [option_map map snd nth pr_city cm_municipio dist_euclidiana] in E.
    pose proof sqrt_scenario_bounds. lra.
  - rewrite scenario_peers. simpl. discriminate.
Qed.

Lemma peer_distance_formula_witness :
  sel_stats Scenario.baseline "C" = [mkCity "C" 10 2] /\
  with_dist Scenario.baseline (mkCity "C" 10 2) =
  map (fun g => (g, distance (mkCity "C" 10 2) 10 8 g)) Scenario.baseline.
Proof.
  split; [reflexivity|].
  destruct (peer_distance_formula Scenario.baseline "C" (mkCity "C" 10 2) []
              eq_refl)
    as [M1 [M2 [s1 [s2 [[I1 L1] [[I2 L2] [P1 [_ [P2 [_ [H _]]]]]]]]]]].
  assert (E1 : M1 = 10).
  { apply Forall_inv in L1. simpl in I1, L1.
    repeat (destruct I1 as [I1|I1]; [lra|]). contradiction. }
  assert (E2 : M2 = 8).
  { apply Forall_inv_tail, Forall_inv in L2. simpl in I2, L2.
    repeat (destruct I2 as [I2|I2]; [lra|]). contradiction. }
  subst M1 M2. rewrite P1, P2 in H by lra. exact H.
Defined.


(** The target itself is always at distance 0 in the full column, and it is
    in the cluster when the baseline has at most six groups. *)
Lemma target_distance_zero (m : list CityRow) (sel : string)
  (target : CityRow) (rest : list CityRow) :
  sel_stats m sel = target :: rest -> In (target, 0) (with_dist m target).
Proof.
  intros E. destruct (sel_stats_In m sel target rest E) as [Hin _].
  rewrite with_dist_pointwise. apply in_map_iff. exists target.
  split; [|exact Hin]. now rewrite distance_self.
Qed.

Lemma small_baseline_keeps_target (m : list CityRow) (sel : string)
  (target : CityRow) (rest : list CityRow) :
  (List.length m <= 6)%nat ->
  sel_stats m sel = target :: rest ->
  exists res, peer_cluster m sel = Some res /\
              In (mkPeer target 0 AlvoAtual) res.
Proof.
  intros Hlen E. unfold peer_cluster. rewrite E. eexists. split; [reflexivity|].
  apply in_map_iff. exists (target, 0). split.
  - unfold classify. cbn [fst snd].
    destruct (sel_stats_In m sel target rest E) as [_ ->].
    now rewrite String.eqb_refl.
  - unfold head. rewrite firstn_all2.
    + apply sort_values_In. now apply (target_distance_zero m sel target rest).
    + now rewrite sort_values_length, with_dist_length.
Qed.

Lemma seven_matrix_eq :
  App3.city_matrix_full Scenario.seven_cities "sp" = Scenario.seven_matrix.
Proof.
  unfold App3.city_matrix_full, App3.df_state_baseline, agg_count_mean.
  cbn. rewrite !series_mean_single. reflexivity.
Qed.

Lemma seven_peers :
  peer_cluster Scenario.seven_matrix "g" =
  Some (map (fun g => mkPeer g 0 Similar)
          [mkCity "a" 1 5; mkCity "b" 1 5; mkCity "c" 1 5; mkCity "d" 1 5;
           mkCity "e" 1 5; mkCity "f" 1 5]).
Proof.
  unfold peer_cluster.
  cbn [sel_stats Scenario.seven_matrix filter cm_municipio String.eqb
       Ascii.eqb Bool.eqb].
  rewrite with_dist_all_zero by (repeat constructor).
  run_sort. reflexivity.
Qed.

(** C3 at its failing input — Seven cities of the state have the same
    number of companies and the same mean age; the selected city is the
    last of them in key order.  All seven are at distance 0, the sort keeps
    them in key order, and the first six rows that are kept do not include
    the selected city: no row of the cluster is the target. *)
Theorem target_cut_off_by_ties (df_filtered : DataFrame) :
  App3.tab1 Scenario.seven_cities df_filtered "sp" "g" =
    Peers (Some (map (fun g => mkPeer g 0 Similar)
                   [mkCity "a" 1 5; mkCity "b" 1 5; mkCity "c" 1 5;
                    mkCity "d" 1 5; mkCity "e" 1 5; mkCity "f" 1 5])) /\
  (forall res,
      peer_cluster (App3.city_matrix_full Scenario.seven_cities "sp") "g"
      = Some res ->
      Forall (fun r => cm_municipio (pr_city r) <> "g"%string /\
                       classificacao r = Similar) res).
Proof.
  split.
  - unfold App3.tab1. cbn [String.eqb Ascii.eqb Bool.eqb andb negb].
    now rewrite seven_matrix_eq, seven_peers.
  - intros res. rewrite seven_matrix_eq, seven_peers. intros H.
    assert (E : res = map (fun g => mkPeer g 0 Similar)
                        [mkCity "a" 1 5; mkCity "b" 1 5; mkCity "c" 1 5;
                         mkCity "d" 1 5; mkCity "e" 1 5; mkCity "f" 1 5])
      by congruence.
    subst res. repeat constructor; simpl; discriminate.
Qed.

(** ** Aggregator *)

Lemma dropna_In (col : list (option string)) (k : string) :
  In k (dropna col) <-> In (Some k) col.
Proof.
  induction col as [|[s|] tl IH]; simpl.
  - tauto.
  - rewrite IH. split; intros [H|H]; auto; left; congruence.
  - rewrite IH. split; [auto | intros [H|H]; [discriminate | exact H]].
Qed.

Lemma group_keys_In (col : list (option string)) (k : string) :
  In k (group_keys col) <-> In (Some k) col.
Proof.
  unfold group_keys, unique.
  rewrite sort_values_In, nodup_In. apply dropna_In.
Qed.

Lemma group_keys_NoDup (col : list (option string)) : NoDup (group_keys col).
Proof.
  unfold group_keys, unique.
  apply (Permutation_NoDup (l := nodup string_dec (dropna col))).
  - apply Permutation_sym, sort_values_perm.
  - apply NoDup_nodup.
Qed.

Lemma cell_eqb_true (c : option string) (k : string) :
  cell_eqb c k = true <-> c = Some k.
Proof.
  destruct c as [s|]; simpl.
  - rewrite String.eqb_eq. split; congruence.
  - split; discriminate.
Qed.

Lemma existsb_cell_false (c : option string) (k : string) (ks : list string) :
  ~ In k ks -> cell_eqb c k = true -> existsb (cell_eqb c) ks = false.
Proof.
  intros Hk Hc. apply cell_eqb_true in Hc. subst c.
  destruct (existsb (cell_eqb (Some k)) ks) eqn:E; [|reflexivity].
  apply existsb_exists in E. destruct E as [k' [Hin Hk']].
  apply cell_eqb_true in Hk'. congruence.
Qed.

Lemma one_group_per_cell (ks : list string) (c : option string) :
  NoDup ks ->
  list_sum (map (fun k => if cell_eqb c k then 1%nat else 0%nat) ks)
  = if existsb (cell_eqb c) ks then 1%nat else 0%nat.
Proof.
  induction 1 as [|k tl Hk Hnd IH]; [reflexivity|].
  cbn [map list_sum fold_right existsb]. fold (list_sum (map
    (fun k => if cell_eqb c k then 1%nat else 0%nat) tl)).
  rewrite IH. destruct (cell_eqb c k) eqn:E; [|reflexivity].
  now rewrite (existsb_cell_false c k tl Hk E).
Qed.

Lemma list_sum_pointwise {A : Type} (f g : A -> nat) (l : list A) :
  list_sum (map (fun a => (f a + g a)%nat) l)
  = (list_sum (map f l) + list_sum (map g l))%nat.
Proof. induction l as [|a tl IH]; simpl; [reflexivity | lia]. Qed.

Lemma list_sum_zero {A : Type} (l : list A) :
  list_sum (map (fun _ => 0%nat) l) = 0%nat.
Proof. induction l; simpl; auto. Qed.

Lemma group_sizes_sum (key : Row -> option string) (P : Row -> bool)
  (ks : list string) (l : list Row) :
  NoDup ks ->
  list_sum
    (map (fun k => List.length (filter (fun r => cell_eqb (key r) k && P r) l))
         ks)
  = List.length (filter (fun r => existsb (cell_eqb (key r)) ks && P r) l).
Proof.
  intros Hnd. induction l as [|r tl IH].
  - simpl. apply list_sum_zero.
  - rewrite (map_ext _
      (fun k => ((if cell_eqb (key r) k && P r then 1 else 0)
                 + List.length
                     (filter (fun r => cell_eqb (key r) k && P r) tl))%nat)).
    + rewrite list_sum_pointwise, IH. cbn [filter].
      destruct (P r).
      * rewrite (map_ext _ (fun k => if cell_eqb (key r) k then 1%nat else 0%nat))
          by (intros k; now rewrite andb_true_r).
        rewrite (one_group_per_cell ks (key r) Hnd), andb_true_r.
        now destruct (existsb (cell_eqb (key r)) ks).
      * rewrite (map_ext _ (fun _ => 0%nat))
          by (intros k; now rewrite andb_false_r).
        now rewrite list_sum_zero, andb_false_r.
    + intros k. cbn [filter].
      now destruct (cell_eqb (key r) k && P r).
Qed.

Lemma series_sum_counts (f : string -> nat) (ks : list string) :
  series_sum (map (fun k => IZR (Z.of_nat (f k))) ks)
  = IZR (Z.of_nat (list_sum (map f ks))).
Proof.
  induction ks as [|k tl IH]; [reflexivity|].
  cbn [map series_sum fold_right list_sum].
  fold (series_sum (map (fun k => IZR (Z.of_nat (f k))) tl)).
  fold (list_sum (map f tl)).
  now rewrite IH, Nat2Z.inj_add, plus_IZR.
Qed.

Lemma count_group (key : Row -> option string) (k : string) (l : list Row) :
  count (map cnpj_completo (filter (fun r => cell_eqb (key r) k) l))
  = Z.of_nat
      (List.length
         (filter (fun r => cell_eqb (key r) k && notnull (cnpj_completo r)) l)).
Proof.
  unfold count. f_equal.
  rewrite filter_map_comm, length_map.
  f_equal. induction l as [|r tl IH]; [reflexivity|]. simpl.
  destruct (cell_eqb (key r) k); simpl; [|exact IH].
  destruct (notnull (cnpj_completo r)); simpl; now rewrite IH.
Qed.

Lemma keys_of_agg (key : Row -> option string) (l : list Row) :
  map cm_municipio (agg_count_mean key l) = group_keys (map key l).
Proof.
  unfold agg_count_mean, groupby. rewrite !map_map. cbn [cm_municipio fst].
  apply map_id.
Qed.

Lemma totals_of_agg (key : Row -> option string) (l : list Row) :
  series_sum (map cm_total (agg_count_mean key l))
  = IZR (Z.of_nat (List.length (filter (counted key) l))).
Proof.
  unfold agg_count_mean, groupby. rewrite !map_map. cbn [cm_total fst snd].
  rewrite (map_ext _
    (fun k => IZR (Z.of_nat
       (List.length
          (filter (fun r => cell_eqb (key r) k && notnull (cnpj_completo r)) l)))))
    by (intros k; now rewrite count_group).
  rewrite (series_sum_counts
    (fun k => List.length
       (filter (fun r => cell_eqb (key r) k && notnull (cnpj_completo r)) l))).
  rewrite group_sizes_sum by apply group_keys_NoDup.
  do 3 f_equal. apply filter_ext_in. intros r Hr. unfold counted. f_equal.
  destruct (key r) as [k|] eqn:E; simpl.
  - apply existsb_exists. exists k. split.
    + apply group_keys_In. rewrite <- E. now apply in_map.
    + apply String.eqb_refl.
  - destruct (existsb _ _) eqn:E'; [|reflexivity].
    apply existsb_exists in E'. now destruct E' as [k [_ Hk]].
Qed.

Lemma agg_one_per_key (key : Row -> option string) (l : list Row) :
  one_aggregate_per_key key l (agg_count_mean key l).
Proof.
  unfold one_aggregate_per_key. rewrite keys_of_agg. split.
  - apply group_keys_NoDup.
  - intros k. rewrite group_keys_In, in_map_iff.
    split; intros [r [H1 H2]]; exists r; tauto.
Qed.

(** C7 (as amended) — Both city aggregations of app3 (the state view over
    the filtered frame, and the peer baseline over the state's rows of the
    snapshot) produce one aggregate per distinct non-null city present,
    and their counts sum to the number of records whose city and company id
    are both non-null; that number is the population size when no record
    has a null city or id. *)
Theorem aggregator_counts (df : DataFrame) (sel_uf : string) :
  let state_rows := rows (App3.df_state_baseline df sel_uf) in
  one_aggregate_per_key municipio_norm (rows df) (App3.city_matrix df) /\
  one_aggregate_per_key municipio_norm state_rows
    (App3.city_matrix_full df sel_uf) /\
  series_sum (map cm_total (App3.city_matrix df))
    = IZR (Z.of_nat (List.length (filter (counted municipio_norm) (rows df)))) /\
  series_sum (map cm_total (App3.city_matrix_full df sel_uf))
    = IZR (Z.of_nat (List.length (filter (counted municipio_norm) state_rows))) /\
  (forallb (counted municipio_norm) (rows df) = true ->
   series_sum (map cm_total (App3.city_matrix df))
     = INR (List.length (rows df))) /\
  (forallb (counted municipio_norm) state_rows = true ->
   series_sum (map cm_total (App3.city_matrix_full df sel_uf))
     = INR (List.length state_rows)).
Proof.
  assert (All : forall l, forallb (counted municipio_norm) l = true ->
                          filter (counted municipio_norm) l = l).
  { intros l H. rewrite forallb_forall in H.
    induction l as [|r tl IH]; [reflexivity|]. simpl.
    rewrite (H r) by now left. f_equal. apply IH. intros x Hx. apply H.
    now right. }
  cbv zeta. unfold App3.city_matrix, App3.city_matrix_full.
  repeat split; try apply agg_one_per_key; try apply totals_of_agg.
  - intros H. now rewrite totals_of_agg, (All _ H), INR_IZR_INZ.
  - intros H. now rewrite totals_of_agg, (All _ H), INR_IZR_INZ.
Qed.

(** C7, as stated, fails on a record whose city is null: it belongs to no
    group, so the counts sum to 0 for a population of 1. *)
Lemma null_city_not_counted :
  rows Scenario.null_city <> [] /\
  series_sum (map cm_total (App3.city_matrix Scenario.null_city))
  <> INR (List.length (rows Scenario.null_city)).
Proof.
  split; [discriminate|].
  unfold App3.city_matrix, agg_count_mean. cbn. lra.
Qed.

(** ** Lead ranker *)

Lemma lex_desc_ge (keys : list (Row -> R)) (a b : Row) :
  lex_desc keys a b = true -> lex_ge keys a b.
Proof.
  induction keys as [|k rest IH]; simpl; [discriminate|].
  intros H. apply orb_true_iff in H. destruct H as [H|H].
  - left. unfold Rgtb in H. apply Rltb_true in H. lra.
  - apply andb_true_iff in H. destruct H as [H1 H2].
    right. split; [now apply Reqb_true | now apply IH].
Qed.

Lemma not_lex_desc_ge (keys : list (Row -> R)) (a b : Row) :
  lex_desc keys a b = false -> lex_ge keys b a.
Proof.
  induction keys as [|k rest IH]; simpl; [trivial|].
  intros H. apply orb_false_iff in H. destruct H as [H1 H2].
  unfold Rgtb in H1. apply Rltb_false in H1.
  destruct (Req_dec_T (k a) (k b)) as [E|N].
  - right. split; [congruence|]. apply IH.
    apply andb_false_iff in H2. destruct H2 as [H2|H2]; [|exact H2].
    apply Reqb_false in H2. contradiction.
  - left. lra.
Qed.

Lemma lex_ge_trans (keys : list (Row -> R)) (a b c : Row) :
  lex_ge keys a b -> lex_ge keys b c -> lex_ge keys a c.
Proof.
  induction keys as [|k rest IH]; simpl; [trivial|].
  intros [H1|[E1 H1]] [H2|[E2 H2]].
  - left. lra.
  - left. lra.
  - left. lra.
  - right. split; [congruence | now apply IH].
Qed.

Lemma sort_desc_sorted (keys : list (Row -> R)) (l : list Row) :
  StronglySorted (lex_ge keys) (sort_desc keys l).
Proof.
  apply sort_values_sorted.
  - apply lex_desc_ge.
  - apply not_lex_desc_ge.
  - apply lex_ge_trans.
Qed.

(** C2 — The golden leads of app4 and app5 (on screen, and the 15 rows of
    the report) are the records of the frame ordered descending by
    capital_social, then descending by the contact score when the frame
    has that column, then descending by age; when the column is absent the
    score is no key at all and the output is exactly the output of the
    two-key (capital, age) sort of the same input. *)
Theorem lead_ranker_order (df : DataFrame) :
  Permutation (App4.df_leads df) (rows df) /\
  StronglySorted (lex_ge (ranking_keys df)) (App4.df_leads df) /\
  App5.df_leads df = App4.df_leads df /\
  App4.pdf_leads df = head 15 (App4.df_leads df) /\
  App5.pdf_leads df = head 15 (App4.df_leads df) /\
  (has_column "score_contato" df = false ->
   App4.df_leads df = two_key_sort (rows df) /\
   App5.pdf_leads df = head 15 (two_key_sort (rows df))).
Proof.
  unfold App4.df_leads, App5.df_leads, App4.pdf_leads, App5.pdf_leads,
    ranked_leads, ranking_keys, two_key_sort.
  destruct (has_column "score_contato" df).
  - repeat split; try discriminate.
    + apply sort_values_perm.
    + apply sort_desc_sorted.
  - repeat split.
    + apply sort_values_perm.
    + apply sort_desc_sorted.
Qed.

(** ** KPI calculator *)

Lemma percent_bounds (vol total : Z) :
  (0 <= vol <= total)%Z ->
  exists p, percent vol total = Ok p /\ 0 <= p <= 100 /\ (total = 0%Z -> p = 0).
Proof.
  intros [H0 H1]. unfold percent.
  destruct (0 <? total)%Z eqn:E.
  - apply Z.ltb_lt in E. apply IZR_lt in E.
    apply IZR_le in H0, H1.
    unfold truediv.
    assert (N : Reqb (IZR total) 0 = false) by (apply Reqb_false; lra).
    rewrite N. cbn [bind]. eexists. split; [reflexivity|]. split.
    + split.
      * apply Rmult_le_pos; [|lra].
        apply Rmult_le_pos; [exact H0|]. left. now apply Rinv_0_lt_compat.
      * assert (Q : IZR vol / IZR total <= 1).
        { apply Rmult_le_reg_r with (IZR total); [exact E|].
          unfold Rdiv. rewrite Rmult_assoc, Rinv_l by lra. lra. }
        lra.
    + intros ->. lra.
  - exists 0. split; [reflexivity|]. split; [lra | reflexivity].
Qed.

Lemma selected_at_most_total {A : Type} (p : A -> bool) (l : list A) :
  (0 <= Z.of_nat (List.length (filter p l)) <= Z.of_nat (List.length l))%Z.
Proof.
  split; [lia|]. apply Nat2Z.inj_le. apply filter_length_le.
Qed.

Lemma percentage_of_selection (df : DataFrame) (p : Row -> bool) :
  percentage_ok df
    (percent (Z.of_nat (List.length (filter p (rows df))))
             (Z.of_nat (List.length (rows df)))).
Proof.
  destruct (percent_bounds _ _ (selected_at_most_total p (rows df)))
    as [q [E [B Z0]]].
  exists q. split; [exact E|]. split; [exact B|].
  intros Hnil. apply Z0. now rewrite Hnil.
Qed.

Lemma percentage_zero (df : DataFrame) : percentage_ok df (Ok 0).
Proof. exists 0. split; [reflexivity|]. split; [lra | reflexivity]. Qed.

Lemma perc_ltda_ok (df : DataFrame) : percentage_ok df (App3.perc_ltda df).
Proof.
  unfold App3.perc_ltda.
  destruct (has_column _ df);
    [apply percentage_of_selection | apply percentage_zero].
Qed.

Lemma high_ticket_perc_ok (df : DataFrame) :
  percentage_ok df (high_ticket_perc df).
Proof.
  unfold high_ticket_perc.
  destruct (has_column _ df); [|apply percentage_zero].
  unfold sum_bool.
  rewrite (filter_map_comm is_high_ticket (fun b => b)), length_map.
  apply percentage_of_selection.
Qed.

Lemma ouro_perc_ok (df : DataFrame) : percentage_ok df (App4.ouro_perc df).
Proof.
  unfold App4.ouro_perc.
  destruct (has_column _ df);
    [apply percentage_of_selection | apply percentage_zero].
Qed.

Lemma alto_risco_perc_ok (df : DataFrame) :
  percentage_ok df (App5.alto_risco_perc df).
Proof.
  unfold App5.alto_risco_perc.
  destruct (has_column _ df);
    [apply percentage_of_selection | apply percentage_zero].
Qed.

(** C8 — Every percentage indicator of the three dashboards (structured
    legal form in app3; high ticket and gold contacts in app4; high risk
    and high ticket in app5) is computed without raising, so no division
    by zero is performed, lies in [0, 100], and equals 0 on an empty
    population. *)
Theorem kpi_percentages (df : DataFrame) :
  percentage_ok df (App3.perc_ltda df) /\
  percentage_ok df (high_ticket_perc df) /\
  percentage_ok df (App4.ouro_perc df) /\
  percentage_ok df (App5.alto_risco_perc df).
Proof.
  split; [apply perc_ltda_ok|].
  split; [apply high_ticket_perc_ok|].
  split; [apply ouro_perc_ok | apply alto_risco_perc_ok].
Qed.

(** ** Optional columns *)

(** The national view derives the missing flag from the premium tiers. *)
Lemma ensure_high_ticket_derives (premium : list string) (df : DataFrame) :
  has_column "is_high_ticket" df = false ->
  has_column "tier_cliente" df = true ->
  exists d, ensure_high_ticket premium df = Ok d /\
            has_column "is_high_ticket" d = true /\
            map is_high_ticket (rows d)
            = map (fun r => isin (tier_cliente r) premium) (rows df).
Proof.
  intros H1 H2. unfold ensure_high_ticket. rewrite H1, H2.
  eexists. split; [reflexivity|]. split.
  - unfold has_column. cbn [columns]. rewrite existsb_app. cbn.
    apply orb_true_r.
  - cbn [rows]. rewrite map_map. reflexivity.
Qed.

(** The state view and the peer view reference the flag without that
    guard. *)
Lemma state_view_needs_flag (df_filtered : DataFrame) :
  has_column "is_high_ticket" df_filtered = false ->
  App4.city_matrix df_filtered = Raise (KeyError "is_high_ticket") /\
  App5.city_matrix df_filtered = Raise (KeyError "is_high_ticket").
Proof.
  intros H. unfold App4.city_matrix, App5.city_matrix, hub_matrix,
    require_column. now rewrite H.
Qed.

Lemma peer_view_needs_flag (df : DataFrame) (sel_uf sel_cidade : string) :
  has_column "is_high_ticket" df = false ->
  peers_high_ticket df sel_uf sel_cidade = Raise (KeyError "is_high_ticket").
Proof.
  intros H. unfold peers_high_ticket, require_column, select, has_column in *.
  cbn [columns]. now rewrite H.
Qed.

(** C9 at its failing input — An education snapshot has the tier column
    but no high-ticket flag.  The national view derives the flag and is
    shown; the state view (the default selection) and the peer view end in
    KeyError on the missing column, in app4 and in app5. *)
Theorem missing_flag_raises :
  (exists page,
      App4.main Scenario.no_flag Scenario.national_view = Some (Ok page)) /\
  App4.main Scenario.no_flag Scenario.state_view
    = Some (Raise (KeyError "is_high_ticket")) /\
  App4.main Scenario.no_flag Scenario.city_all
    = Some (Raise (KeyError "is_high_ticket")) /\
  App5.main Scenario.no_flag Scenario.state_view
    = Some (Raise (KeyError "is_high_ticket")) /\
  App5.main Scenario.no_flag Scenario.city_all
    = Some (Raise (KeyError "is_high_ticket")).
Proof.
  split; [eexists; reflexivity|].
  repeat split; reflexivity.
Qed.

(** ** The peer view under the category filters *)

Lemma geo_filter_city (df : DataFrame) (w : Widgets) :
  pick_uf w <> "Todos"%string -> snd (geo_filter df w) = pick_cidade w.
Proof.
  intros H. unfold geo_filter. apply String.eqb_neq in H. rewrite H.
  now destruct (String.eqb (pick_cidade w) "Todas").
Qed.

Lemma kpi_total (df : DataFrame) (kpi : result R) :
  percentage_ok df kpi -> exists p, kpi = Ok p.
Proof. intros [p [E _]]. now exists p. Qed.

Lemma app3_city_view (df : DataFrame) (w : Widgets) :
  pick_uf w <> "Todos"%string -> pick_cidade w <> "Todas"%string ->
  shown3 (App3.main df w) =
  if empty (fst (fst (App3.sidebar_filters df w))) then None
  else Some (Ok (Peers (peer_cluster (App3.city_matrix_full df (pick_uf w))
                          (pick_cidade w)))).
Proof.
  intros Huf Hc. unfold App3.main, App3.sidebar_filters.
  pose proof (geo_filter_city df w Huf) as G.
  destruct (geo_filter df w) as [dff c]. simpl in G. subst c.
  cbn [fst snd]. destruct (empty _); [reflexivity|].
  cbn [shown3 option_map].
  match goal with |- context [App3.perc_ltda ?d] =>
    destruct (kpi_total _ _ (perc_ltda_ok d)) as [p ->]
  end.
  cbn [bind App3.view_tab1]. unfold App3.tab1.
  apply String.eqb_neq in Huf, Hc. now rewrite Huf, Hc.
Qed.

Lemma app4_city_view (df : DataFrame) (w : Widgets) :
  pick_uf w <> "Todos"%string -> pick_cidade w <> "Todas"%string ->
  shown4 (App4.main df w) =
  if empty (fst (fst (App4.sidebar_filters df w))) then None
  else Some (p <- peers_high_ticket df (pick_uf w) (pick_cidade w) ;;
             Ok (Peers p)).
Proof.
  intros Huf Hc. unfold App4.main, App4.sidebar_filters.
  pose proof (geo_filter_city df w Huf) as G.
  destruct (geo_filter df w) as [dff c]. simpl in G. subst c.
  cbn [fst snd]. destruct (empty _); [reflexivity|].
  cbn [shown4 option_map].
  match goal with |- context [high_ticket_perc ?d] =>
    destruct (kpi_total _ _ (high_ticket_perc_ok d)) as [p ->];
    destruct (kpi_total _ _ (ouro_perc_ok d)) as [q ->]
  end.
  cbn [bind]. unfold App4.tab1.
  apply String.eqb_neq in Huf, Hc. rewrite Huf, Hc. cbn [andb negb].
  destruct (peers_high_ticket _ _ _); reflexivity.
Qed.

Lemma app5_city_view (df : DataFrame) (w : Widgets) :
  pick_uf w <> "Todos"%string -> pick_cidade w <> "Todas"%string ->
  shown5 (App5.main df w) =
  if empty (fst (fst (App5.sidebar_filters df w))) then None
  else Some (p <- peers_high_ticket df (pick_uf w) (pick_cidade w) ;;
             Ok (Peers p)).
Proof.
  intros Huf Hc. unfold App5.main, App5.sidebar_filters.
  pose proof (geo_filter_city df w Huf) as G.
  destruct (geo_filter df w) as [dff c]. simpl in G. subst c.
  cbn [fst snd]. destruct (empty _); [reflexivity|].
  cbn [shown5 option_map].
  match goal with |- context [high_ticket_perc ?d] =>
    destruct (kpi_total _ _ (high_ticket_perc_ok d)) as [q ->];
    destruct (kpi_total _ _ (alto_risco_perc_ok d)) as [p ->]
  end.
  cbn [bind]. unfold App5.tab1.
  apply String.eqb_neq in Huf, Hc. rewrite Huf, Hc. cbn [andb negb].
  destruct (peers_high_ticket _ _ _); reflexivity.
Qed.

(** C10 — With the snapshot, the selected state and the selected city
    fixed, any two settings of the category filters under which the page
    reaches the first tab show the same peer view, in each of the three
    dashboards: it is the peer cluster (keys, distances, order and target
    tag) computed from the snapshot restricted to the selected state, in
    which the filtered frame does not occur. *)
Theorem peers_ignore_category_filters (df : DataFrame) (w1 w2 : Widgets) :
  pick_uf w1 = pick_uf w2 ->
  pick_cidade w1 = pick_cidade w2 ->
  pick_uf w1 <> "Todos"%string ->
  pick_cidade w1 <> "Todas"%string ->
  (forall t1 t2,
      shown3 (App3.main df w1) = Some t1 ->
      shown3 (App3.main df w2) = Some t2 ->
      t1 = t2 /\
      t1 = Ok (Peers (peer_cluster (App3.city_matrix_full df (pick_uf w1))
                        (pick_cidade w1)))) /\
  (forall t1 t2,
      shown4 (App4.main df w1) = Some t1 ->
      shown4 (App4.main df w2) = Some t2 ->
      t1 = t2 /\
      t1 = (p <- peers_high_ticket df (pick_uf w1) (pick_cidade w1) ;;
            Ok (Peers p))) /\
  (forall t1 t2,
      shown5 (App5.main df w1) = Some t1 ->
      shown5 (App5.main df w2) = Some t2 ->
      t1 = t2 /\
      t1 = (p <- peers_high_ticket df (pick_uf w1) (pick_cidade w1) ;;
            Ok (Peers p))).
Proof.
  intros Euf Ec Huf Hc.
  assert (Huf2 : pick_uf w2 <> "Todos"%string) by congruence.
  assert (Hc2 : pick_cidade w2 <> "Todas"%string) by congruence.
  split; [|split]; intros t1 t2.
  - rewrite (app3_city_view df w1 Huf Hc), (app3_city_view df w2 Huf2 Hc2).
    rewrite <- Euf, <- Ec.
    destruct (empty _); [discriminate|]. destruct (empty _); [discriminate|].
    intros [= <-] [= <-]. now split.
  - rewrite (app4_city_view df w1 Huf Hc), (app4_city_view df w2 Huf2 Hc2).
    rewrite <- Euf, <- Ec.
    destruct (empty _); [discriminate|]. destruct (empty _); [discriminate|].
    intros [= <-] [= <-]. now split.
  - rewrite (app5_city_view df w1 Huf Hc), (app5_city_view df w2 Huf2 Hc2).
    rewrite <- Euf, <- Ec.
    destruct (empty _); [discriminate|]. destruct (empty _); [discriminate|].
    intros [= <-] [= <-]. now split.
Qed.

Lemma peers_ignore_category_filters_witness :
  exists t,
    shown3 (App3.main Scenario.two_portes Scenario.city_all) = Some t /\
    shown3 (App3.main Scenario.two_portes Scenario.city_micro) = Some t.
Proof.
  assert (N1 : pick_uf Scenario.city_all <> "Todos"%string) by discriminate.
  assert (N2 : pick_cidade Scenario.city_all <> "Todas"%string) by discriminate.
  assert (N3 : pick_uf Scenario.city_micro <> "Todos"%string) by discriminate.
  assert (N4 : pick_cidade Scenario.city_micro <> "Todas"%string)
    by discriminate.
  pose proof (app3_city_view Scenario.two_portes Scenario.city_all N1 N2) as E1.
  pose proof (app3_city_view Scenario.two_portes Scenario.city_micro N3 N4)
    as E2.
  change (empty (fst (fst (App3.sidebar_filters Scenario.two_portes
                             Scenario.city_all)))) with false in E1.
  change (empty (fst (fst (App3.sidebar_filters Scenario.two_portes
                             Scenario.city_micro)))) with false in E2.
  cbv iota in E1, E2.
  destruct (peers_ignore_category_filters Scenario.two_portes
              Scenario.city_all Scenario.city_micro eq_refl eq_refl N1 N2)
    as [H3 _].
  destruct (H3 _ _ E1 E2) as [Heq _].
  eexists. split; [exact E1 | rewrite Heq; exact E2].
Defined.

(** * Further properties *)

(** ** Sidebar *)

Lemma filter_filter_and {A : Type} (p q : A -> bool) (l : list A) :
  filter p (filter q l) = filter (fun x => q x && p x) l.
Proof.
  induction l as [|x tl IH]; [reflexivity|]. simpl.
  destruct (q x); simpl; [destruct (p x)|]; now rewrite IH.
Qed.

Lemma filter_true {A : Type} (l : list A) : filter (fun _ => true) l = l.
Proof. induction l as [|x tl IH]; [reflexivity|]. simpl. now rewrite IH. Qed.

Lemma geo_filter_rows (df : DataFrame) (w : Widgets) :
  fst (geo_filter df w) = select (geo_ok w) df /\
  snd (geo_filter df w)
  = (if String.eqb (pick_uf w) "Todos" then "Todas"%string else pick_cidade w).
Proof.
  unfold geo_filter, geo_ok, select.
  destruct (String.eqb (pick_uf w) "Todos"); cbn [orb fst snd].
  - split; [|reflexivity]. rewrite filter_true. now destruct df.
  - destruct (String.eqb (pick_cidade w) "Todas"); cbn [orb fst snd rows columns].
    + split; [|reflexivity]. f_equal. apply filter_ext. intros r.
      now rewrite andb_true_r.
    + split; [|reflexivity]. f_equal. now rewrite filter_filter_and.
Qed.

Lemma category_filter_rows (label : string) (field : Row -> option string)
  (picked : list string) (df : DataFrame) (p : Row -> bool) :
  category_filter label field picked df (select p df)
  = select (fun r => p r && category_ok label field picked df r) df.
Proof.
  unfold category_filter, category_ok, select.
  destruct (has_column label df); cbn [negb orb].
  - destruct picked as [|k ks].
    + f_equal. apply filter_ext. intros r. now rewrite andb_true_r.
    + cbn [rows columns]. f_equal. now rewrite filter_filter_and.
  - f_equal. apply filter_ext. intros r. now rewrite andb_true_r.
Qed.

Lemma sidebar3_spec (df : DataFrame) (w : Widgets) :
  App3.sidebar_filters df w =
  (select (fun r => geo_ok w r
             && category_ok "porte_descricao_norm" porte_descricao_norm
                  (pick_porte w) df r) df,
   fst (selection w), snd (selection w)).
Proof.
  unfold App3.sidebar_filters, selection.
  destruct (geo_filter_rows df w) as [E1 E2].
  destruct (geo_filter df w) as [dff c]. cbn [fst snd] in *. subst.
  now rewrite category_filter_rows.
Qed.

Lemma select_select (p q : Row -> bool) (df : DataFrame) :
  select p (select q df) = select (fun r => q r && p r) df.
Proof. unfold select. cbn [rows columns]. now rewrite filter_filter_and. Qed.

Lemma category_filter_select (label : string) (field : Row -> option string)
  (picked : list string) (df dff : DataFrame) :
  category_filter label field picked df dff
  = select (category_ok label field picked df) dff.
Proof.
  unfold category_filter, category_ok, select.
  destruct (has_column label df); cbn [negb orb].
  - destruct picked as [|k ks]; [|reflexivity].
    rewrite filter_true. now destruct dff.
  - rewrite filter_true. now destruct dff.
Qed.

Lemma sidebar4_spec (df : DataFrame) (w : Widgets) :
  App4.sidebar_filters df w =
  (select (fun r => geo_ok w r
             && category_ok "segmento_educacional" segmento_educacional
                  (pick_segmento w) df r
             && category_ok "tier_cliente" tier_cliente (pick_tier w) df r) df,
   fst (selection w), snd (selection w)).
Proof.
  unfold App4.sidebar_filters, selection.
  destruct (geo_filter_rows df w) as [E1 E2].
  destruct (geo_filter df w) as [dff c]. cbn [fst snd] in *. subst.
  rewrite !category_filter_select, !select_select.
  do 2 f_equal. unfold select. f_equal. apply filter_ext. intros r.
  now rewrite andb_assoc.
Qed.

Lemma sidebar5_spec (df : DataFrame) (w : Widgets) :
  App5.sidebar_filters df w =
  (select (fun r => geo_ok w r
             && category_ok "segmento_construcao" segmento_construcao
                  (pick_segmento w) df r) df,
   fst (selection w), snd (selection w)).
Proof.
  unfold App5.sidebar_filters, selection.
  destruct (geo_filter_rows df w) as [E1 E2].
  destruct (geo_filter df w) as [dff c]. cbn [fst snd] in *. subst.
  now rewrite category_filter_rows.
Qed.

(** X1 — In each of the three sidebars the filtered frame has the columns
    of the snapshot and holds, in snapshot order, exactly the records that
    pass the geographic selection and every category filter of that
    sidebar; the selection returned is the picked state, and the picked
    city unless the state is "Todos", in which case it is "Todas". *)
Theorem sidebar_keeps_matching_records (df : DataFrame) (w : Widgets) :
  App3.sidebar_filters df w =
  (select (fun r => geo_ok w r
             && category_ok "porte_descricao_norm" porte_descricao_norm
                  (pick_porte w) df r) df,
   fst (selection w), snd (selection w)) /\
  App4.sidebar_filters df w =
  (select (fun r => geo_ok w r
             && category_ok "segmento_educacional" segmento_educacional
                  (pick_segmento w) df r
             && category_ok "tier_cliente" tier_cliente (pick_tier w) df r) df,
   fst (selection w), snd (selection w)) /\
  App5.sidebar_filters df w =
  (select (fun r => geo_ok w r
             && category_ok "segmento_construcao" segmento_construcao
                  (pick_segmento w) df r) df,
   fst (selection w), snd (selection w)).
Proof.
  split; [apply sidebar3_spec|]. split; [apply sidebar4_spec | apply sidebar5_spec].
Qed.

Lemma isin_In (c : option string) (values : list string) :
  isin c values = true <-> exists s, c = Some s /\ In s values.
Proof.
  unfold isin. rewrite existsb_exists. split.
  - intros [k [Hin Hk]]. apply cell_eqb_true in Hk. now exists k.
  - intros [s [-> Hin]]. exists s. split; [exact Hin|]. apply String.eqb_refl.
Qed.

(** X2 — When the snapshot has the column of a category filter and the
    selection of that filter is not empty, every record kept by the
    sidebar has a non-null category among the picked ones: records with a
    null category are hidden, also when every option is picked. *)
Theorem category_selection_hides_null (df : DataFrame) (w : Widgets) (r : Row) :
  (has_column "porte_descricao_norm" df = true -> pick_porte w <> [] ->
   In r (rows (fst (fst (App3.sidebar_filters df w)))) ->
   exists s, porte_descricao_norm r = Some s /\ In s (pick_porte w)) /\
  (has_column "segmento_educacional" df = true -> pick_segmento w <> [] ->
   In r (rows (fst (fst (App4.sidebar_filters df w)))) ->
   exists s, segmento_educacional r = Some s /\ In s (pick_segmento w)) /\
  (has_column "tier_cliente" df = true -> pick_tier w <> [] ->
   In r (rows (fst (fst (App4.sidebar_filters df w)))) ->
   exists s, tier_cliente r = Some s /\ In s (pick_tier w)) /\
  (has_column "segmento_construcao" df = true -> pick_segmento w <> [] ->
   In r (rows (fst (fst (App5.sidebar_filters df w)))) ->
   exists s, segmento_construcao r = Some s /\ In s (pick_segmento w)).
Proof.
  rewrite sidebar3_spec, sidebar4_spec, sidebar5_spec. cbn [fst rows select].
  unfold category_ok.
  repeat split; intros Hc Hp Hin; rewrite Hc in Hin; apply filter_In in Hin;
    destruct Hin as [_ Hin]; cbn [negb orb] in Hin;
    repeat (apply andb_true_iff in Hin; destruct Hin as [Hin ?]).
  - destruct (pick_porte w); [easy|]. now apply isin_In.
  - destruct (pick_segmento w); [easy|]. now apply isin_In.
  - destruct (pick_tier w); [easy|]. now apply isin_In.
  - destruct (pick_segmento w); [easy|]. now apply isin_In.
Qed.

Lemma category_selection_hides_null_witness :
  exists s,
    porte_descricao_norm (Scenario.it_firm "01" "a" "MICRO EMPRESA" 3 1000)
    = Some s /\ In s (pick_porte Scenario.city_micro).
Proof.
  apply (proj1 (category_selection_hides_null Scenario.two_portes
                  Scenario.city_micro
                  (Scenario.it_firm "01" "a" "MICRO EMPRESA" 3 1000))).
  - reflexivity.
  - discriminate.
  - cbn. left. reflexivity.
Defined.

(** ** Sidebar options *)

Lemma index_of_In (x : string) (l : list string) :
  In x l -> exists i, index_of x l = Some i /\ nth_error l i = Some x.
Proof.
  induction l as [|y tl IH]; [easy|]. intros H. simpl.
  destruct (String.eqb y x) eqn:E.
  - apply String.eqb_eq in E. subst. now exists 0%nat.
  - destruct H as [H|H]; [apply String.eqb_neq in E; contradiction|].
    destruct (IH H) as [i [-> Hi]]. now exists (S i).
Qed.

Lemma existsb_eqb_In (x : string) (l : list string) :
  existsb (String.eqb x) l = true <-> In x l.
Proof.
  rewrite existsb_exists. split.
  - intros [y [Hy E]]. apply String.eqb_eq in E. now subst.
  - intros H. exists x. split; [exact H | apply String.eqb_refl].
Qed.

Lemma existsb_cell_In (k : string) (l : list Row) (key : Row -> option string) :
  existsb (fun r => cell_eqb (key r) k) l = true <-> In (Some k) (map key l).
Proof.
  rewrite existsb_exists, in_map_iff. split.
  - intros [r [Hr E]]. apply cell_eqb_true in E. now exists r.
  - intros [r [E Hr]]. exists r. split; [exact Hr | now apply cell_eqb_true].
Qed.

(** X3 — The index of the default state never fails, and the option it
    selects is "sp" when some record of the snapshot is in SP and "Todos"
    otherwise. *)
Theorem default_state_selection (df : DataFrame) :
  exists i,
    default_uf_idx df = Some i /\
    nth_error (opts_uf df) i
    = Some (if existsb (fun r => cell_eqb (uf_norm r) "sp") (rows df)
            then "sp"%string else "Todos"%string).
Proof.
  unfold default_uf_idx.
  assert (K : In "sp"%string (opts_uf df)
              <-> In (Some "sp"%string) (map uf_norm (rows df))).
  { unfold opts_uf, lista_ufs. rewrite <- group_keys_In. unfold group_keys.
    split; [intros [H|H]; [discriminate | exact H] | now right]. }
  destruct (existsb (String.eqb "sp") (opts_uf df)) eqn:E.
  - apply existsb_eqb_In in E.
    destruct (index_of_In _ _ E) as [i [Hi Hn]]. exists i.
    split; [exact Hi|]. rewrite Hn.
    apply K, existsb_cell_In in E. now rewrite E.
  - exists 0%nat. split; [reflexivity|].
    destruct (existsb (fun r => cell_eqb (uf_norm r) "sp") (rows df)) eqn:E';
      [|reflexivity].
    apply existsb_cell_In, K, existsb_eqb_In in E'. congruence.
Qed.

(** ** Peer finder, from the sidebar to the cluster *)

Lemma keys_of_agg_ht (key : Row -> option string) (l : list Row) :
  map cm_municipio (agg_count_ht key l) = group_keys (map key l).
Proof.
  unfold agg_count_ht, groupby. rewrite !map_map. cbn [cm_municipio fst].
  apply map_id.
Qed.

Lemma sel_stats_found (m : list CityRow) (c : string) :
  In c (map cm_municipio m) <-> sel_stats m c <> [].
Proof.
  unfold sel_stats. split.
  - intros H. apply in_map_iff in H. destruct H as [g [E Hg]].
    assert (Hin : In g (filter (fun g => String.eqb (cm_municipio g) c) m)).
    { apply filter_In. split; [exact Hg | now apply String.eqb_eq]. }
    intros N. now rewrite N in Hin.
  - intros H. destruct (filter _ m) as [|g tl] eqn:E; [easy|].
    assert (Hin : In g (filter (fun g => String.eqb (cm_municipio g) c) m))
      by (rewrite E; now left).
    apply filter_In in Hin. destruct Hin as [Hg Hc].
    apply String.eqb_eq in Hc. apply in_map_iff. now exists g.
Qed.

Lemma peer_cluster_found (m : list CityRow) (c : string) :
  In c (map cm_municipio m) <-> peer_cluster m c <> None.
Proof.
  rewrite sel_stats_found. unfold peer_cluster.
  destruct (sel_stats m c); split; intros H; try easy.
Qed.

(** X4 — The city options are "Todas" followed by the keys of the peer
    baseline of the selected state, in the same order; the peer cluster
    exists exactly for the cities that are such keys, so a city offered by
    the sidebar is always found in its baseline (in app4 and app5 when the
    snapshot has the high-ticket flag). *)
Theorem offered_city_is_found (df : DataFrame) (sel_uf c : string) :
  opts_cidade df sel_uf
  = "Todas"%string :: map cm_municipio (App3.city_matrix_full df sel_uf) /\
  (In c (map cm_municipio (App3.city_matrix_full df sel_uf))
   <-> peer_cluster (App3.city_matrix_full df sel_uf) c <> None) /\
  (has_column "is_high_ticket" df = true ->
   (In c (tl (opts_cidade df sel_uf))
    <-> exists res, peers_high_ticket df sel_uf c = Ok (Some res))).
Proof.
  split; [|split].
  - unfold opts_cidade, lista_cidades, App3.city_matrix_full,
      App3.df_state_baseline. now rewrite keys_of_agg.
  - apply peer_cluster_found.
  - intros Hc. unfold peers_high_ticket, require_column.
    assert (E : has_column "is_high_ticket"
                  (select (fun r => cell_eqb (uf_norm r) sel_uf) df) = true)
      by exact Hc.
    rewrite E. cbn [bind].
    change (tl (opts_cidade df sel_uf))
      with (group_keys (map municipio_norm
              (rows (select (fun r => cell_eqb (uf_norm r) sel_uf) df)))).
    rewrite <- keys_of_agg_ht, peer_cluster_found.
    destruct (peer_cluster _ c) as [res|]; split; intros H; try easy.
    + now exists res.
    + now destruct H.
Qed.

(** ** What [head] leaves out of a sorted list *)

Lemma sorted_head_dominates {A : Type} (le : A -> A -> Prop) (n : nat)
  (l : list A) :
  StronglySorted le l ->
  forall x y, In x (head n l) -> In y (skipn n l) -> le x y.
Proof.
  unfold head. revert n. induction l as [|a tl IH]; intros n Hs x y Hx Hy.
  - now rewrite firstn_nil in Hx.
  - destruct n as [|n]; [easy|]. cbn [firstn skipn] in *.
    apply StronglySorted_inv in Hs. destruct Hs as [Hs Ha].
    destruct Hx as [<-|Hx].
    + rewrite Forall_forall in Ha. apply Ha.
      rewrite <- (firstn_skipn n tl). apply in_or_app. now right.
    + now apply (IH n).
Qed.

Lemma head_or_skipped {A : Type} (n : nat) (l : list A) (x : A) :
  In x l -> In x (head n l) \/ In x (skipn n l).
Proof.
  intros H. rewrite <- (firstn_skipn n l) in H. now apply in_app_or in H.
Qed.

Lemma NoDup_head {A : Type} (n : nat) (l : list A) :
  NoDup l -> NoDup (head n l).
Proof.
  intros H. rewrite <- (firstn_skipn n l) in H.
  now apply NoDup_app_remove_r in H.
Qed.

Lemma head_map {A B : Type} (f : A -> B) (n : nat) (l : list A) :
  head n (map f l) = map f (head n l).
Proof. unfold head. apply firstn_map. Qed.

(** The cluster before tagging. *)
Lemma peer_cluster_rows (m : list CityRow) (sel : string) (res : list PeerRow) :
  peer_cluster m sel = Some res ->
  exists target rest,
    sel_stats m sel = target :: rest /\
    res = map (classify sel)
            (head 6 (sort_values by_dist (with_dist m target))).
Proof.
  unfold peer_cluster. destruct (sel_stats m sel) as [|target rest]; [easy|].
  intros H. exists target, rest. split; [reflexivity | congruence].
Qed.

Lemma classify_city (sel : string) (l : list (CityRow * R)) :
  map pr_city (map (classify sel) l) = map fst l.
Proof. rewrite map_map. reflexivity. Qed.

(** X5 — The cluster holds the nearest groups: a group of the baseline
    that is not in the cluster is at least as far from the target as every
    row of the cluster. *)
Theorem peer_cluster_nearest (m : list CityRow) (sel : string)
  (target : CityRow) (rest : list CityRow) (res : list PeerRow)
  (r : PeerRow) (g : CityRow) :
  sel_stats m sel = target :: rest ->
  peer_cluster m sel = Some res ->
  In r res -> In g m -> ~ In g (map pr_city res) ->
  dist_euclidiana r
  <= distance target (max_or_one (map cm_total m))
       (max_or_one (map cm_metric m)) g.
Proof.
  intros E H Hr Hg Hout.
  destruct (peer_cluster_rows m sel res H) as [t [rs [E' ->]]].
  rewrite E in E'. injection E' as <- <-.
  set (d := distance target _ _ g).
  assert (Hin : In (g, d) (sort_values by_dist (with_dist m target))).
  { apply sort_values_In. rewrite with_dist_pointwise.
    apply in_map_iff. now exists g. }
  apply (head_or_skipped 6) in Hin. destruct Hin as [Hin|Hin].
  - exfalso. apply Hout. rewrite classify_city.
    apply in_map_iff. now exists (g, d).
  - apply in_map_iff in Hr. destruct Hr as [p [<- Hp]].
    apply (sorted_head_dominates (fun a b => snd a <= snd b) 6 _
             (by_dist_sorted _) p (g, d) Hp Hin).
Qed.

Lemma peer_cluster_nearest_witness :
  dist_euclidiana (mkPeer (mkCity "a" 1 5) 0 Similar)
  <= distance (mkCity "g" 1 5) (max_or_one (map cm_total Scenario.seven_matrix))
       (max_or_one (map cm_metric Scenario.seven_matrix)) (mkCity "g" 1 5).
Proof.
  apply (peer_cluster_nearest Scenario.seven_matrix "g" (mkCity "g" 1 5) []
           _ _ _ eq_refl seven_peers).
  - now left.
  - simpl. tauto.
  - simpl. intros H.
    repeat (destruct H as [H|H]; [discriminate|]). exact H.
Defined.

(** X6 — The rows of a peer cluster (app3, and app4 and app5 when the
    flag column is there) are distinct cities, each the city of some record
    of the snapshot in the selected state, and a row is tagged as the
    target exactly when its city is the selected one. *)
Theorem peer_cluster_cities (df : DataFrame) (sel_uf sel_cidade : string)
  (res : list PeerRow) :
  peer_cluster (App3.city_matrix_full df sel_uf) sel_cidade = Some res
  \/ (has_column "is_high_ticket" df = true /\
      peers_high_ticket df sel_uf sel_cidade = Ok (Some res)) ->
  NoDup (map (fun r => cm_municipio (pr_city r)) res) /\
  (forall r, In r res ->
     (exists row, In row (rows df) /\ uf_norm row = Some sel_uf /\
                  municipio_norm row = Some (cm_municipio (pr_city r))) /\
     (classificacao r = AlvoAtual <-> cm_municipio (pr_city r) = sel_cidade)).
Proof.
  intros H.
  assert (G : exists m,
    peer_cluster m sel_cidade = Some res /\
    map cm_municipio m
    = group_keys (map municipio_norm
        (rows (select (fun r => cell_eqb (uf_norm r) sel_uf) df)))).
  { destruct H as [H|[Hc H]].
    - eexists. split; [exact H|]. apply keys_of_agg.
    - unfold peers_high_ticket, require_column in H.
      assert (E : has_column "is_high_ticket"
                    (select (fun r => cell_eqb (uf_norm r) sel_uf) df) = true)
        by exact Hc.
      rewrite E in H. cbn [bind] in H. injection H as H.
      eexists. split; [exact H|]. apply keys_of_agg_ht. }
  clear H. destruct G as [m [H K]].
  destruct (peer_cluster_rows m sel_cidade res H) as [t [rs [E ->]]].
  assert (P : Permutation (map fst (sort_values by_dist (with_dist m t))) m).
  { apply perm_trans with (map fst (with_dist m t)).
    - apply Permutation_map, sort_values_perm.
    - rewrite with_dist_pointwise, map_map. cbn [fst]. now rewrite map_id. }
  split.
  - rewrite <- (map_map pr_city cm_municipio), classify_city, <- head_map.
    rewrite <- head_map. apply NoDup_head.
    apply (Permutation_NoDup (l := map cm_municipio m)).
    + apply Permutation_map, Permutation_sym, P.
    + rewrite K. apply group_keys_NoDup.
  - intros r Hr. apply in_map_iff in Hr. destruct Hr as [p [<- Hp]]. split.
    + cbn [classify pr_city]. apply head_In in Hp.
      assert (Hm : In (fst p) m).
      { apply (Permutation_in _ P). now apply in_map. }
      assert (Hk : In (cm_municipio (fst p)) (map cm_municipio m))
        by now apply in_map.
      rewrite K in Hk. apply group_keys_In, in_map_iff in Hk.
      destruct Hk as [row [Ecity Hrow]]. cbn [rows select] in Hrow.
      apply filter_In in Hrow. destruct Hrow as [Hrow Huf].
      exists row. split; [exact Hrow|]. split; [|exact Ecity].
      now apply cell_eqb_true.
    + unfold classify. cbn [classificacao pr_city].
      destruct (String.eqb (cm_municipio (fst p)) sel_cidade) eqn:Eq.
      * apply String.eqb_eq in Eq. tauto.
      * apply String.eqb_neq in Eq. split; [discriminate | contradiction].
Qed.

Lemma peer_cluster_cities_witness :
  NoDup (map (fun r => cm_municipio (pr_city r))
           (map (fun g => mkPeer g 0 Similar)
              [mkCity "a" 1 5; mkCity "b" 1 5; mkCity "c" 1 5;
               mkCity "d" 1 5; mkCity "e" 1 5; mkCity "f" 1 5])).
Proof.
  assert (H : peer_cluster (App3.city_matrix_full Scenario.seven_cities "sp")
                "g"
              = Some (map (fun g => mkPeer g 0 Similar)
                        [mkCity "a" 1 5; mkCity "b" 1 5; mkCity "c" 1 5;
                         mkCity "d" 1 5; mkCity "e" 1 5; mkCity "f" 1 5])).
  { rewrite seven_matrix_eq. exact seven_peers. }
  apply (peer_cluster_cities Scenario.seven_cities "sp" "g" _ (or_introl H)).
Defined.

(** ** Aggregated views *)

Lemma desc_sorted {A : Type} (key : A -> R) (l : list A) :
  StronglySorted (fun a b => key a >= key b)
    (sort_values (fun a b => Rgtb (key a) (key b)) l).
Proof.
  apply sort_values_sorted; unfold Rgtb.
  - intros a b H. apply Rltb_true in H. lra.
  - intros a b H. apply Rltb_false in H. lra.
  - intros a b c. lra.
Qed.

Lemma head_desc_top {A : Type} (key : A -> R) (n : nat) (l : list A) :
  top_rows key n l (head n (sort_values (fun a b => Rgtb (key a) (key b)) l)).
Proof.
  unfold top_rows. repeat split.
  - now rewrite head_length, sort_values_length.
  - intros g Hg. apply head_In in Hg. now apply sort_values_In in Hg.
  - apply StronglySorted_head, desc_sorted.
  - intros g h Hg Hh Hout.
    apply (sort_values_In (fun a b => Rgtb (key a) (key b))) in Hh.
    apply (head_or_skipped n) in Hh. destruct Hh as [Hh|Hh]; [contradiction|].
    apply Rge_le.
    apply (sorted_head_dominates (fun a b => key a >= key b) n _
             (desc_sorted key l) g h Hg Hh).
Qed.

(** X7 — The state matrix of app3 (20 rows), the national ranking of
    app3 (10 rows) and the state matrices of app4 and app5 (20 rows) hold
    the rows of their aggregation with the most companies: sorted
    descending by the count, as many as the bound allows, and no row left
    out has more companies than a row shown. *)
Theorem matrix_views_show_the_top (df df_filtered : DataFrame) :
  top_rows cm_total 20 (App3.city_matrix df_filtered)
    (App3.city_matrix_top df_filtered) /\
  top_rows cm_total 10 (agg_count_mean uf_norm (rows (df_expansion df)))
    (App3.expansion_data df) /\
  (forall m, App4.city_matrix df_filtered = Ok m ->
     top_rows total_empresas 20 (agg_hub municipio_norm (rows df_filtered)) m) /\
  (forall m, App5.city_matrix df_filtered = Ok m ->
     top_rows total_empresas 20 (agg_hub municipio_norm (rows df_filtered)) m).
Proof.
  split; [apply head_desc_top|]. split; [apply head_desc_top|].
  unfold App4.city_matrix, App5.city_matrix, hub_matrix.
  split; intros m; destruct (require_column _ _); cbn [bind]; try discriminate;
    intros H;
    assert (E : m = head 20 (sort_values by_hub_total_desc
                               (agg_hub municipio_norm (rows df_filtered))))
      by congruence;
    rewrite E; apply (head_desc_top total_empresas 20).
Qed.

(** The national view works on the snapshot without the records of SP. *)
Lemma df_expansion_rows (df : DataFrame) (r : Row) :
  In r (rows (df_expansion df)) <->
  In r (rows df) /\ uf_norm r <> Some "sp"%string.
Proof.
  unfold df_expansion.
  destruct (existsb (fun r => cell_eqb (uf_norm r) "sp") (rows df)) eqn:E.
  - cbn [rows select]. rewrite filter_In. split; intros [H1 H2]; split; auto.
    + intros N. apply cell_eqb_true in N. now rewrite N in H2.
    + destruct (cell_eqb (uf_norm r) "sp") eqn:C; [|reflexivity].
      now apply cell_eqb_true in C.
  - split; [|tauto]. intros H. split; [exact H|]. intros N.
    assert (X : existsb (fun r => cell_eqb (uf_norm r) "sp") (rows df) = true).
    { apply existsb_exists. exists r. split; [exact H|].
      now apply cell_eqb_true. }
    congruence.
Qed.

Lemma groupby_keys {A : Type} (key : A -> option string) (l : list A) :
  map fst (groupby key l) = group_keys (map key l).
Proof. unfold groupby. rewrite map_map. apply map_id. Qed.

Lemma keys_of_hub (key : Row -> option string) (l : list Row) :
  map hub_key (agg_hub key l) = group_keys (map key l).
Proof.
  unfold agg_hub, groupby. rewrite !map_map. cbn [hub_key fst]. apply map_id.
Qed.

Lemma ensure_high_ticket_keeps (premium : list string) (df d : DataFrame)
  (field : Row -> option string) :
  (forall b r, field (set_is_high_ticket b r) = field r) ->
  ensure_high_ticket premium df = Ok d ->
  map field (rows d) = map field (rows df).
Proof.
  intros Hf. unfold ensure_high_ticket.
  destruct (has_column "is_high_ticket" df); [now intros [= <-]|].
  destruct (has_column "tier_cliente" df); [|discriminate].
  intros [= <-]. cbn [rows]. rewrite map_map. apply map_ext. intros r. apply Hf.
Qed.

Lemma expansion_keys (df : DataFrame) (k : string) :
  In k (group_keys (map uf_norm (rows (df_expansion df)))) ->
  k <> "sp"%string /\ exists row, In row (rows df) /\ uf_norm row = Some k.
Proof.
  intros H. apply group_keys_In, in_map_iff in H. destruct H as [row [E Hr]].
  apply df_expansion_rows in Hr. destruct Hr as [Hr Hsp].
  split; [congruence | now exists row].
Qed.

(** X8 — The national view never lists SP: every state it shows, in the
    three dashboards, is different from "sp" and is the state of some
    record of the snapshot. *)
Theorem expansion_excludes_sp (df : DataFrame) :
  (forall g, In g (App3.expansion_data df) ->
     cm_municipio g <> "sp"%string /\
     exists row, In row (rows df) /\ uf_norm row = Some (cm_municipio g)) /\
  (forall e h, App4.expansion_data df = Ok e -> In h e ->
     hub_key h <> "sp"%string /\
     exists row, In row (rows df) /\ uf_norm row = Some (hub_key h)) /\
  (forall e g, App5.expansion_data df = Ok e -> In g e ->
     cm_municipio g <> "sp"%string /\
     exists row, In row (rows df) /\ uf_norm row = Some (cm_municipio g)).
Proof.
  split; [|split].
  - intros g Hg. unfold App3.expansion_data in Hg.
    apply head_In, sort_values_In in Hg.
    apply expansion_keys. rewrite <- keys_of_agg. now apply in_map.
  - intros e h He Hh. unfold App4.expansion_data in He.
    destruct (ensure_high_ticket App4.premium (df_expansion df)) as [d|] eqn:D;
      [|discriminate].
    cbn [bind] in He.
    assert (E : e = head 10 (sort_values by_hub_ht_desc
                               (agg_hub uf_norm (rows d)))) by congruence.
    rewrite E in Hh. apply head_In, sort_values_In in Hh.
    apply expansion_keys.
    rewrite <- (ensure_high_ticket_keeps _ _ _ uf_norm (fun _ _ => eq_refl) D).
    rewrite <- keys_of_hub. now apply in_map.
  - intros e g He Hg. unfold App5.expansion_data in He.
    destruct (ensure_high_ticket App5.premium (df_expansion df)) as [d|] eqn:D;
      [|discriminate].
    cbn [bind] in He.
    assert (E : e = head 10 (sort_values by_total_desc
                               (agg_count_ht uf_norm (rows d)))) by congruence.
    rewrite E in Hg. apply head_In, sort_values_In in Hg.
    apply expansion_keys.
    rewrite <- (ensure_high_ticket_keeps _ _ _ uf_norm (fun _ _ => eq_refl) D).
    rewrite <- keys_of_agg_ht. now apply in_map.
Qed.

(** ** Groups *)

Lemma series_sum_bounds (lo hi : R) (col : Series) :
  Forall (fun v => lo <= v <= hi) col ->
  lo * INR (List.length col) <= series_sum col <= hi * INR (List.length col).
Proof.
  unfold series_sum.
  induction 1 as [|v tl Hv _ IH]; [simpl; lra|].
  cbn [fold_right]. rewrite length_cons, S_INR. lra.
Qed.

Lemma series_mean_bounds (lo hi : R) (col : Series) :
  col <> [] ->
  Forall (fun v => lo <= v <= hi) col ->
  lo <= series_mean col <= hi.
Proof.
  intros Hne H. pose proof (series_sum_bounds lo hi col H) as [B1 B2].
  assert (P : 0 < INR (List.length col)).
  { apply lt_0_INR. destruct col; [easy | simpl; lia]. }
  unfold series_mean. split.
  - apply Rmult_le_reg_r with (INR (List.length col)); [exact P|].
    unfold Rdiv. rewrite Rmult_assoc, Rinv_l by lra. lra.
  - apply Rmult_le_reg_r with (INR (List.length col)); [exact P|].
    unfold Rdiv. rewrite Rmult_assoc, Rinv_l by lra. lra.
Qed.

Lemma groupby_group {A : Type} (key : A -> option string) (l : list A)
  (k : string) (grp : list A) :
  In (k, grp) (groupby key l) ->
  grp = filter (fun r => cell_eqb (key r) k) l /\ grp <> [].
Proof.
  unfold groupby. intros H. apply in_map_iff in H.
  destruct H as [k' [E Hk]]. injection E as -> <-. split; [reflexivity|].
  apply group_keys_In, in_map_iff in Hk. destruct Hk as [r [Er Hr]].
  assert (Hin : In r (filter (fun r => cell_eqb (key r) k) l)).
  { apply filter_In. split; [exact Hr | now apply cell_eqb_true]. }
  intros N. now rewrite N in Hin.
Qed.

(** X9 — Every aggregate comes from a non-empty group: its count is the
    number of non-null company ids of the records with its key, at most
    the size of the group, and its mean age is the sum of their ages over
    their number, hence between any bounds that hold for all of them. *)
Theorem aggregate_of_a_group (key : Row -> option string) (l : list Row)
  (g : CityRow) :
  In g (agg_count_mean key l) ->
  let grp := filter (fun r => cell_eqb (key r) (cm_municipio g)) l in
  grp <> [] /\
  cm_total g = IZR (count (map cnpj_completo grp)) /\
  0 <= cm_total g <= INR (List.length grp) /\
  cm_metric g * INR (List.length grp)
  = series_sum (map idade_empresa_anos grp) /\
  (forall lo hi,
      (forall r, In r grp -> lo <= idade_empresa_anos r <= hi) ->
      lo <= cm_metric g <= hi).
Proof.
  intros Hg. cbv zeta. unfold agg_count_mean in Hg. apply in_map_iff in Hg.
  destruct Hg as [[k grp] [<- Hin]].
  cbn [fst snd cm_municipio cm_total cm_metric].
  destruct (groupby_group key l k grp Hin) as [E Hne].
  rewrite <- E. clear E Hin.
  assert (P : 0 < INR (List.length grp)).
  { apply lt_0_INR. destruct grp; [easy | simpl; lia]. }
  split; [exact Hne|]. split; [reflexivity|]. split; [|split].
  - split; [apply count_nonneg|]. unfold count.
    rewrite INR_IZR_INZ. apply IZR_le, Nat2Z.inj_le.
    rewrite <- (length_map cnpj_completo grp). apply filter_length_le.
  - unfold series_mean. rewrite length_map. field. lra.
  - intros lo hi H. apply series_mean_bounds.
    + intros N. apply map_eq_nil in N. contradiction.
    + apply Forall_forall. intros v Hv. apply in_map_iff in Hv.
      destruct Hv as [r [<- Hr]]. now apply H.
Qed.

Lemma aggregate_of_a_group_witness :
  cm_total (mkCity "a" 1 (series_mean [5]))
  = IZR (count (map cnpj_completo
                  (filter (fun r => cell_eqb (municipio_norm r) "a")
                     (rows Scenario.seven_cities)))).
Proof.
  apply (aggregate_of_a_group municipio_norm (rows Scenario.seven_cities)
           (mkCity "a" 1 (series_mean [5]))).
  unfold agg_count_mean. cbn. left. reflexivity.
Defined.

(** ** The flag derived in the national view *)

Lemma groupby_map {A : Type} (key : A -> option string) (f : A -> A)
  (l : list A) :
  (forall r, key (f r) = key r) ->
  groupby key (map f l)
  = map (fun g => (fst g, map f (snd g))) (groupby key l).
Proof.
  intros Hk. unfold groupby. rewrite !map_map.
  rewrite (map_ext (fun r => key (f r)) key) by exact Hk.
  apply map_ext. intros k. cbn [fst snd]. f_equal.
  rewrite filter_map_comm. f_equal. apply filter_ext. intros r. now rewrite Hk.
Qed.

(** X10 — When the snapshot has no high-ticket flag, the national views
    of app4 and app5 count as high ticket, for each state shown, exactly
    the records of that state (SP left out) whose tier is one of the
    premium tiers of the dashboard. *)
Theorem derived_flag_counts_premium (df : DataFrame) :
  has_column "is_high_ticket" df = false ->
  (forall e h, App4.expansion_data df = Ok e -> In h e ->
     leads_high_ticket h
     = INR (List.length
              (filter (fun r => cell_eqb (uf_norm r) (hub_key h)
                                && isin (tier_cliente r) App4.premium)
                      (rows (df_expansion df))))) /\
  (forall e g, App5.expansion_data df = Ok e -> In g e ->
     cm_metric g
     = INR (List.length
              (filter (fun r => cell_eqb (uf_norm r) (cm_municipio g)
                                && isin (tier_cliente r) App5.premium)
                      (rows (df_expansion df))))).
Proof.
  intros Hc.
  assert (Hc' : has_column "is_high_ticket" (df_expansion df) = false).
  { unfold df_expansion. now destruct (existsb _ _). }
  split.
  - intros e h He Hh. unfold App4.expansion_data, ensure_high_ticket in He.
    rewrite Hc' in He.
    destruct (has_column "tier_cliente" (df_expansion df)); [|discriminate].
    cbn [bind rows] in He.
    assert (E : e = head 10 (sort_values by_hub_ht_desc
      (agg_hub uf_norm
         (map (fun r => set_is_high_ticket (isin (tier_cliente r) App4.premium) r)
              (rows (df_expansion df)))))) by congruence.
    rewrite E in Hh. clear E He. apply head_In, sort_values_In in Hh.
    unfold agg_hub in Hh. rewrite groupby_map in Hh by reflexivity.
    rewrite map_map in Hh. cbn [fst snd] in Hh.
    apply in_map_iff in Hh. destruct Hh as [[k grp] [<- Hin]].
    cbn [fst snd leads_high_ticket hub_key].
    destruct (groupby_group _ _ _ _ Hin) as [-> _].
    rewrite map_map. cbn [is_high_ticket set_is_high_ticket].
    unfold sum_bool. rewrite INR_IZR_INZ. do 3 f_equal.
    rewrite (filter_map_comm (fun r => isin (tier_cliente r) App4.premium)
               (fun b => b)), length_map.
    now rewrite filter_filter_and.
  - intros e g He Hg. unfold App5.expansion_data, ensure_high_ticket in He.
    rewrite Hc' in He.
    destruct (has_column "tier_cliente" (df_expansion df)); [|discriminate].
    cbn [bind rows] in He.
    assert (E : e = head 10 (sort_values by_total_desc
      (agg_count_ht uf_norm
         (map (fun r => set_is_high_ticket (isin (tier_cliente r) App5.premium) r)
              (rows (df_expansion df)))))) by congruence.
    rewrite E in Hg. clear E He. apply head_In, sort_values_In in Hg.
    unfold agg_count_ht in Hg. rewrite groupby_map in Hg by reflexivity.
    rewrite map_map in Hg. cbn [fst snd] in Hg.
    apply in_map_iff in Hg. destruct Hg as [[k grp] [<- Hin]].
    cbn [fst snd cm_metric cm_municipio].
    destruct (groupby_group _ _ _ _ Hin) as [-> _].
    rewrite map_map. cbn [is_high_ticket set_is_high_ticket].
    unfold sum_bool. rewrite INR_IZR_INZ. do 3 f_equal.
    rewrite (filter_map_comm (fun r => isin (tier_cliente r) App5.premium)
               (fun b => b)), length_map.
    now rewrite filter_filter_and.
Qed.

Lemma derived_flag_counts_premium_witness :
  exists h,
    In h [mkHub "rj" (IZR (count [Some "01"; Some "02"]%string))
            (IZR (sum_bool [true; false]))
            (series_mean [5; 5])] /\
    leads_high_ticket h = INR 1.
Proof.
  eexists. split; [left; reflexivity|].
  apply (proj1 (derived_flag_counts_premium Examples.edu_rj eq_refl)
           [mkHub "rj" (IZR (count [Some "01"; Some "02"]%string))
              (IZR (sum_bool [true; false])) (series_mean [5; 5])]).
  - reflexivity.
  - left. reflexivity.
Defined.

(** ** Lead ranker *)

Lemma lex_ge_not_desc (keys : list (Row -> R)) (a b : Row) :
  lex_ge keys a b -> lex_desc keys b a = false.
Proof.
  induction keys as [|k rest IH]; simpl; [reflexivity|].
  intros [H|[E H]].
  - apply orb_false_iff. split.
    + apply Rltb_false. lra.
    + apply andb_false_iff. left. apply Reqb_false. lra.
  - apply orb_false_iff. split.
    + apply Rltb_false. lra.
    + apply andb_false_iff. right. now apply IH.
Qed.

Lemma sorted_is_fixed (keys : list (Row -> R)) (l : list Row) :
  StronglySorted (lex_ge keys) l -> sort_desc keys l = l.
Proof.
  unfold sort_desc. induction 1 as [|x tl Hs IH Hx]; [reflexivity|].
  cbn [sort_values fold_right]. fold (sort_values (lex_desc keys) tl).
  rewrite IH. destruct tl as [|y tl']; [reflexivity|].
  cbn [insert_row]. apply Forall_inv in Hx.
  now rewrite (lex_ge_not_desc keys x y Hx).
Qed.

(** X11 — Ranking is idempotent: ranking the ranked leads again gives
    the same list, with the two keys of app3 and with the keys of app4 and
    app5. *)
Theorem ranking_is_idempotent (df : DataFrame) :
  App3.df_leads (mkFrame (columns df) (App3.df_leads df)) = App3.df_leads df /\
  ranked_leads (mkFrame (columns df) (ranked_leads df)) = ranked_leads df.
Proof.
  unfold App3.df_leads, ranked_leads, has_column. cbn [rows columns].
  split.
  - apply sorted_is_fixed, sort_desc_sorted.
  - destruct (existsb _ (columns df)); apply sorted_is_fixed, sort_desc_sorted.
Qed.

Lemma same_keys_not_before (keys : list (Row -> R)) (a x y : Row) :
  same_keys keys a x = true -> same_keys keys a y = true ->
  lex_desc keys y x = false.
Proof.
  induction keys as [|k rest IH]; simpl; [reflexivity|].
  intros Hx Hy. apply andb_true_iff in Hx, Hy.
  destruct Hx as [Hx Hx'], Hy as [Hy Hy'].
  apply Reqb_true in Hx, Hy. apply orb_false_iff. split.
  - apply Rltb_false. lra.
  - apply andb_false_iff. right. now apply IH.
Qed.

Lemma insert_row_same_keys (keys : list (Row -> R)) (a x : Row) (l : list Row) :
  filter (same_keys keys a) (insert_row (lex_desc keys) x l)
  = filter (same_keys keys a) (x :: l).
Proof.
  induction l as [|y tl IH]; [reflexivity|].
  cbn [insert_row]. destruct (lex_desc keys y x) eqn:E; [|reflexivity].
  cbn [filter] in *. rewrite IH.
  destruct (same_keys keys a y) eqn:Ey, (same_keys keys a x) eqn:Ex;
    try reflexivity.
  rewrite (same_keys_not_before keys a x y Ex Ey) in E. discriminate.
Qed.

Lemma sort_desc_stable (keys : list (Row -> R)) (a : Row) (l : list Row) :
  filter (same_keys keys a) (sort_desc keys l) = filter (same_keys keys a) l.
Proof.
  unfold sort_desc. induction l as [|x tl IH]; [reflexivity|].
  cbn [sort_values fold_right]. fold (sort_values (lex_desc keys) tl).
  rewrite insert_row_same_keys. cbn [filter]. now rewrite IH.
Qed.

(** X12 — Leads that agree on every ranking key keep their order of the
    input frame. *)
Theorem ranking_keeps_order_of_ties (df : DataFrame) (a : Row) :
  filter (same_keys [capital_social; idade_empresa_anos] a) (App3.df_leads df)
  = filter (same_keys [capital_social; idade_empresa_anos] a) (rows df) /\
  filter (same_keys (ranking_keys df) a) (ranked_leads df)
  = filter (same_keys (ranking_keys df) a) (rows df).
Proof.
  split; [apply sort_desc_stable|].
  unfold ranked_leads, ranking_keys.
  destruct (has_column "score_contato" df); apply sort_desc_stable.
Qed.

Lemma lex_ge_first (k : Row -> R) (rest : list (Row -> R)) (a b : Row) :
  lex_ge (k :: rest) a b -> k b <= k a.
Proof. simpl. intros [H|[H _]]; lra. Qed.

Lemma StronglySorted_weaken {A : Type} (P Q : A -> A -> Prop) (l : list A) :
  (forall a b, P a b -> Q a b) -> StronglySorted P l -> StronglySorted Q l.
Proof.
  intros H. induction 1 as [|x tl Hs IH Hx]; constructor; [exact IH|].
  eapply Forall_impl; [|exact Hx]. intros b. apply H.
Qed.

Lemma sort_desc_first_key (k : Row -> R) (rest : list (Row -> R))
  (l : list Row) :
  StronglySorted (fun a b => k b <= k a) (sort_desc (k :: rest) l).
Proof.
  apply StronglySorted_weaken with (P := lex_ge (k :: rest)).
  - intros a b. apply lex_ge_first.
  - apply sort_desc_sorted.
Qed.

Lemma ranked_capital_sorted (df : DataFrame) :
  StronglySorted (fun a b => capital_social b <= capital_social a)
    (ranked_leads df) /\
  StronglySorted (fun a b => capital_social b <= capital_social a)
    (App3.df_leads df).
Proof.
  unfold ranked_leads, App3.df_leads. split.
  - destruct (has_column "score_contato" df); apply sort_desc_first_key.
  - apply sort_desc_first_key.
Qed.

Lemma head_head {A : Type} (n m : nat) (l : list A) :
  (n <= m)%nat -> head n (head m l) = head n l.
Proof.
  intros H. unfold head. rewrite firstn_firstn. f_equal. lia.
Qed.

(** X13 — The 15 leads of the report are the first 15 of the 50 shown on
    screen, and any first [n] leads dominate the rest by capital: a record
    of the frame that is not among them has at most the capital of each of
    them. *)
Theorem report_lists_the_first_leads (df : DataFrame) :
  App3.pdf_leads df = head 15 (head 50 (App3.df_leads df)) /\
  App4.pdf_leads df = head 15 (head 50 (App4.df_leads df)) /\
  App5.pdf_leads df = head 15 (head 50 (App5.df_leads df)) /\
  (forall n x y,
      In x (head n (App3.df_leads df)) ->
      In y (rows df) -> ~ In y (head n (App3.df_leads df)) ->
      capital_social y <= capital_social x) /\
  (forall n x y,
      In x (head n (ranked_leads df)) ->
      In y (rows df) -> ~ In y (head n (ranked_leads df)) ->
      capital_social y <= capital_social x).
Proof.
  destruct (ranked_capital_sorted df) as [S4 S3].
  repeat split.
  - unfold App3.pdf_leads, App3.df_leads. now rewrite head_head by lia.
  - unfold App4.pdf_leads, App4.df_leads. now rewrite head_head by lia.
  - unfold App5.pdf_leads, App5.df_leads. now rewrite head_head by lia.
  - intros n x y Hx Hy Hout.
    apply (sort_values_In (lex_desc [capital_social; idade_empresa_anos]))
      in Hy.
    apply (head_or_skipped n) in Hy. destruct Hy as [Hy|Hy]; [contradiction|].
    apply (sorted_head_dominates _ n _ S3 x y Hx Hy).
  - intros n x y Hx Hy Hout.
    assert (Hy' : In y (ranked_leads df)).
    { unfold ranked_leads. destruct (has_column _ df);
        now apply sort_values_In. }
    apply (head_or_skipped n) in Hy'. destruct Hy' as [Hy'|Hy'];
      [contradiction|].
    apply (sorted_head_dominates _ n _ S4 x y Hx Hy').
Qed.

(** ** Indicators of a shown page *)

Lemma percent_of_nonempty (vol total : Z) :
  (0 < total)%Z -> percent vol total = Ok (IZR vol / IZR total * 100).
Proof.
  intros H. unfold percent, truediv.
  apply Z.ltb_lt in H as H'. rewrite H'. apply IZR_lt in H.
  assert (N : Reqb (IZR total) 0 = false) by (apply Reqb_false; lra).
  now rewrite N.
Qed.

Lemma empty_false (df : DataFrame) :
  empty df = false <-> rows df <> [].
Proof. unfold empty. destruct (rows df); split; intros; easy. Qed.

Lemma main3_page (df : DataFrame) (w : Widgets) (page : App3.Page) :
  App3.main df w = Some (Ok page) ->
  let df_filtered := fst (fst (App3.sidebar_filters df w)) in
  rows df_filtered <> [] /\
  App3.perc_ltda df_filtered = Ok (App3.kpi_perc_ltda page).
Proof.
  unfold App3.main. destruct (App3.sidebar_filters df w) as [[dff uf] c].
  cbn [fst]. destruct (empty dff) eqn:E; [discriminate|].
  apply empty_false in E. intros H. split; [exact E|].
  destruct (App3.perc_ltda dff) as [p|]; [|discriminate].
  cbn [bind] in H. injection H as <-. reflexivity.
Qed.

(** X14 — When app3 shows a page for a snapshot with the legal-form
    column, the filtered frame is not empty, the percentage shown is the
    share of records whose legal form starts with 2 times 100 (the zero
    fallback of the indicator is not taken), and the mean age lies between
    any bounds that hold for the ages of the filtered records. *)
Theorem shown_indicators_divide (df : DataFrame) (w : Widgets)
  (page : App3.Page) :
  App3.main df w = Some (Ok page) ->
  has_column "natureza_juridica" df = true ->
  let df_filtered := fst (fst (App3.sidebar_filters df w)) in
  let ltda := filter (fun r => startswith "2" (natureza_juridica r))
                (rows df_filtered) in
  rows df_filtered <> [] /\
  App3.kpi_perc_ltda page
  = INR (List.length ltda) / INR (List.length (rows df_filtered)) * 100 /\
  (forall lo hi,
      (forall r, In r (rows df_filtered) -> lo <= idade_empresa_anos r <= hi) ->
      lo <= idade_media df_filtered <= hi).
Proof.
  intros H Hc. destruct (main3_page df w page H) as [Hne Hp]. cbv zeta.
  split; [exact Hne|]. split.
  - unfold App3.perc_ltda in Hp.
    assert (Hc' : has_column "natureza_juridica"
                    (fst (fst (App3.sidebar_filters df w))) = true).
    { rewrite sidebar3_spec. exact Hc. }
    rewrite Hc' in Hp. rewrite percent_of_nonempty in Hp.
    + rewrite <- !INR_IZR_INZ in Hp. congruence.
    + destruct (rows (fst (fst (App3.sidebar_filters df w)))); [easy|].
      simpl. lia.
  - intros lo hi Hb. unfold idade_media. apply series_mean_bounds.
    + intros N. apply map_eq_nil in N. contradiction.
    + apply Forall_forall. intros v Hv. apply in_map_iff in Hv.
      destruct Hv as [r [<- Hr]]. now apply Hb.
Qed.

Lemma main3_shows (df : DataFrame) (w : Widgets) :
  rows (fst (fst (App3.sidebar_filters df w))) <> [] ->
  exists page, App3.main df w = Some (Ok page).
Proof.
  unfold App3.main. destruct (App3.sidebar_filters df w) as [[dff uf] c].
  cbn [fst]. intros H. apply empty_false in H. rewrite H.
  destruct (kpi_total _ _ (perc_ltda_ok dff)) as [p ->]. cbn [bind].
  eexists. reflexivity.
Qed.

Lemma shown_indicators_divide_witness :
  exists page,
    App3.main Scenario.two_portes Scenario.city_all = Some (Ok page) /\
    rows (fst (fst (App3.sidebar_filters Scenario.two_portes
                      Scenario.city_all))) <> [].
Proof.
  assert (N : rows (fst (fst (App3.sidebar_filters Scenario.two_portes
                                Scenario.city_all))) <> [])
    by (cbn; discriminate).
  destruct (main3_shows _ _ N) as [page M]. exists page.
  split; [exact M|].
  apply (shown_indicators_divide _ _ _ M eq_refl).
Defined.

(** ** Value counts *)

Lemma unique_first_In (l : list string) (x : string) :
  In x (unique_first l) <-> In x l.
Proof.
  induction l as [|y tl IH]; [tauto|]. cbn [unique_first In].
  rewrite filter_In, IH. split.
  - intros [H|[H _]]; auto.
  - intros [H|H]; [now left|].
    destruct (String.eqb x y) eqn:E.
    + apply String.eqb_eq in E. now left.
    + right. split; [exact H | reflexivity].
Qed.

Lemma unique_first_NoDup (l : list string) : NoDup (unique_first l).
Proof.
  induction l as [|y tl IH]; [constructor|]. cbn [unique_first].
  constructor.
  - intros H. apply filter_In in H. destruct H as [_ H].
    now rewrite String.eqb_refl in H.
  - now apply NoDup_filter.
Qed.

Lemma cell_counts_sum (ks : list string) (col : list (option string)) :
  NoDup ks ->
  list_sum (map (fun k => occurrences k col) ks)
  = List.length (filter (fun c => existsb (cell_eqb c) ks) col).
Proof.
  intros Hnd. unfold occurrences. induction col as [|c tl IH].
  - simpl. apply list_sum_zero.
  - rewrite (map_ext _
      (fun k => ((if cell_eqb c k then 1 else 0)
                 + List.length (filter (fun c => cell_eqb c k) tl))%nat)).
    + rewrite list_sum_pointwise, IH, (one_group_per_cell ks c Hnd).
      cbn [filter]. now destruct (existsb (cell_eqb c) ks).
    + intros k. cbn [filter]. now destruct (cell_eqb c k).
Qed.

Lemma sum_counts_perm (t u : list (string * Z)) :
  Permutation t u -> sum_counts t = sum_counts u.
Proof.
  unfold sum_counts.
  induction 1 as [|x l l' _ IH|x y l|l l' l'' _ IH1 _ IH2]; simpl; lia.
Qed.

Lemma sum_counts_occurrences (ks : list string) (col : list (option string)) :
  sum_counts (map (fun k => (k, Z.of_nat (occurrences k col))) ks)
  = Z.of_nat (list_sum (map (fun k => occurrences k col) ks)).
Proof.
  unfold sum_counts. induction ks as [|k tl IH]; [reflexivity|].
  cbn [map fold_right snd list_sum]. rewrite IH.
  fold (list_sum (map (fun k => occurrences k col) tl)). lia.
Qed.

Lemma by_count_sorted (t : list (string * Z)) :
  StronglySorted (fun a b => (snd b <= snd a)%Z) (sort_values by_count_desc t).
Proof.
  apply sort_values_sorted; unfold by_count_desc.
  - intros a b H. apply Z.ltb_lt in H. lia.
  - intros a b H. apply Z.ltb_ge in H. lia.
  - intros a b c. lia.
Qed.

Lemma value_counts_In (col : list (option string)) (k : string) (n : Z) :
  In (k, n) (value_counts col) <->
  In (Some k) col /\ n = Z.of_nat (occurrences k col).
Proof.
  unfold value_counts. rewrite sort_values_In, in_map_iff. split.
  - intros [k' [E H]]. injection E as -> <-.
    apply unique_first_In, dropna_In in H. now split.
  - intros [H ->]. exists k. split; [reflexivity|].
    now apply unique_first_In, dropna_In.
Qed.

Lemma occurrences_pos (col : list (option string)) (k : string) :
  In (Some k) col -> (1 <= occurrences k col)%nat.
Proof.
  intros H. unfold occurrences.
  assert (Hin : In (Some k) (filter (fun c => cell_eqb c k) col)).
  { apply filter_In. split; [exact H | now apply cell_eqb_true]. }
  destruct (filter _ col); [easy | simpl; lia].
Qed.

Lemma value_counts_keys (col : list (option string)) :
  Permutation (map fst (value_counts col)) (unique_first (dropna col)).
Proof.
  unfold value_counts.
  apply perm_trans with
    (map fst (map (fun k => (k, Z.of_nat (occurrences k col)))
                (unique_first (dropna col)))).
  - apply Permutation_map, sort_values_perm.
  - rewrite map_map. cbn [fst]. now rewrite map_id.
Qed.

Lemma value_counts_NoDup (col : list (option string)) :
  NoDup (map fst (value_counts col)).
Proof.
  apply (Permutation_NoDup (l := unique_first (dropna col))).
  - apply Permutation_sym, value_counts_keys.
  - apply unique_first_NoDup.
Qed.

Lemma value_counts_pos (col : list (option string)) (k : string) (n : Z) :
  In (k, n) (value_counts col) -> (1 <= n)%Z.
Proof.
  intros H. apply value_counts_In in H. destruct H as [H ->].
  apply occurrences_pos in H. lia.
Qed.

(** X15 — [value_counts], which feeds the size, tier and district charts:
    its keys are distinct, an entry is there exactly for a value held by
    some cell, with the number of cells that hold it (at least 1), entries
    are sorted with the most frequent first, and the counts add up to the
    number of non-null cells. *)
Theorem value_counts_table (col : list (option string)) :
  NoDup (map fst (value_counts col)) /\
  (forall k n, In (k, n) (value_counts col) <->
               In (Some k) col /\ n = Z.of_nat (occurrences k col)) /\
  (forall k n, In (k, n) (value_counts col) -> (1 <= n)%Z) /\
  StronglySorted (fun a b => (snd b <= snd a)%Z) (value_counts col) /\
  sum_counts (value_counts col)
  = Z.of_nat (List.length (filter notnull col)).
Proof.
  split; [|split; [|split; [|split]]].
  - apply value_counts_NoDup.
  - apply value_counts_In.
  - apply value_counts_pos.
  - apply by_count_sorted.
  - unfold value_counts.
    rewrite (sum_counts_perm _ _ (sort_values_perm by_count_desc _)).
    rewrite sum_counts_occurrences, cell_counts_sum
      by apply unique_first_NoDup.
    do 2 f_equal. apply filter_ext_in. intros [s|] Hc; simpl.
    + apply existsb_exists. exists s. split.
      * now apply unique_first_In, dropna_In.
      * apply String.eqb_refl.
    + destruct (existsb _ _) eqn:E; [|reflexivity].
      apply existsb_exists in E. now destruct E as [k [_ Hk]].
Qed.

Lemma occurrences_masked (k s : string) (col : list (option string)) :
  k <> s ->
  occurrences k (filter (fun c => negb (cell_eqb c s)) col) = occurrences k col.
Proof.
  intros N. unfold occurrences. rewrite filter_filter_and. f_equal.
  apply filter_ext. intros c. destruct (cell_eqb c k) eqn:E.
  - apply cell_eqb_true in E. subst c. simpl.
    apply String.eqb_neq in N. now rewrite N.
  - apply andb_false_r.
Qed.

(** X16 — The district ranking of app3 has at most 15 entries with
    distinct keys, most frequent first; it never lists the sentinel
    'nao_informado'; each entry carries the number of cells of the column
    with that district; and a district of the column that is not listed
    has at most the count of each listed one. *)
Theorem bairros_top_table (bairro_norm : list (option string)) :
  (List.length (bairros_top bairro_norm) <= 15)%nat /\
  NoDup (map fst (bairros_top bairro_norm)) /\
  StronglySorted (fun a b => (snd b <= snd a)%Z) (bairros_top bairro_norm) /\
  (forall k n, In (k, n) (bairros_top bairro_norm) ->
     k <> "nao_informado"%string /\ In (Some k) bairro_norm /\
     n = Z.of_nat (occurrences k bairro_norm) /\ (1 <= n)%Z) /\
  (forall k n j, In (k, n) (bairros_top bairro_norm) ->
     In (Some j) bairro_norm -> j <> "nao_informado"%string ->
     ~ In j (map fst (bairros_top bairro_norm)) ->
     (Z.of_nat (occurrences j bairro_norm) <= n)%Z).
Proof.
  unfold bairros_top.
  set (masked := filter (fun c => negb (cell_eqb c "nao_informado")) bairro_norm).
  assert (M : forall k, In (Some k) masked <->
                        In (Some k) bairro_norm /\ k <> "nao_informado"%string).
  { intros k. unfold masked. rewrite filter_In. simpl.
    rewrite negb_true_iff, String.eqb_neq. tauto. }
  pose proof (value_counts_NoDup masked) as ND.
  pose proof (value_counts_In masked) as IN.
  pose proof (value_counts_pos masked) as POS.
  pose proof (by_count_sorted
    (map (fun k => (k, Z.of_nat (occurrences k masked)))
       (unique_first (dropna masked)))) as SO.
  fold (value_counts masked) in SO.
  split; [|split; [|split; [|split]]].
  - rewrite head_length. lia.
  - rewrite <- head_map. now apply NoDup_head.
  - now apply StronglySorted_head.
  - intros k n H. apply head_In in H. pose proof (POS k n H) as P.
    apply IN in H. destruct H as [Hk ->]. apply M in Hk.
    destruct Hk as [Hk Hs]. repeat split; try assumption.
    unfold masked. now rewrite occurrences_masked.
  - intros k n j Hk Hj Hs Hout.
    assert (Hv : In (j, Z.of_nat (occurrences j masked)) (value_counts masked)).
    { apply IN. split; [|reflexivity]. now apply M. }
    apply (head_or_skipped 15) in Hv. destruct Hv as [Hv|Hv].
    + exfalso. apply Hout. apply in_map_iff.
      exists (j, Z.of_nat (occurrences j masked)). now split.
    + rewrite <- (occurrences_masked j "nao_informado" bairro_norm Hs).
      fold masked.
      apply (sorted_head_dominates _ 15 _ SO (k, n) _ Hk Hv).
Qed.

(** ** The report *)

(** X17 — When the page of app3 calls [generate_pdf], a state and a city
    are selected and the table of the report is never the no-lead line: it
    has between 1 and 15 leads, as many as min(15, qualified leads of the
    header), all of them records of the snapshot in the selected state and
    city. *)
Theorem report_has_leads_of_the_city (df : DataFrame) (w : Widgets)
  (pdf : Pdf) :
  report3 df w = Some pdf ->
  pick_uf w <> "Todos"%string /\ pick_cidade w <> "Todas"%string /\
  exists df_leads,
    tabela pdf = LeadLines df_leads /\
    (1 <= List.length df_leads <= 15)%nat /\
    List.length df_leads = Nat.min 15 (leads_qualificados pdf) /\
    (forall r, In r df_leads ->
       In r (rows df) /\ uf_norm r = Some (pick_uf w) /\
       municipio_norm r = Some (pick_cidade w)).
Proof.
  unfold report3. rewrite sidebar3_spec. unfold selection. cbn [fst snd].
  set (dff := select _ df).
  destruct (empty dff) eqn:E; [discriminate|]. apply empty_false in E.
  destruct (String.eqb (pick_uf w) "Todos") eqn:Euf.
  { cbn. discriminate. }
  destruct (String.eqb (pick_cidade w) "Todas") eqn:Ec; [discriminate|].
  cbn [negb]. intros H.
  assert (P : pdf = generate_pdf3 dff) by congruence. subst pdf. clear H.
  apply String.eqb_neq in Euf as Nuf. apply String.eqb_neq in Ec as Nc.
  split; [exact Nuf|]. split; [exact Nc|].
  unfold generate_pdf3. cbn [tabela leads_qualificados].
  assert (L : List.length (App3.pdf_leads dff)
              = Nat.min 15 (List.length (rows dff))).
  { unfold App3.pdf_leads, sort_desc. now rewrite head_length, sort_values_length. }
  assert (N : (0 < List.length (rows dff))%nat).
  { destruct (rows dff); [easy | simpl; lia]. }
  exists (App3.pdf_leads dff). split; [|split; [|split]].
  - unfold pdf_table. destruct (App3.pdf_leads dff) eqn:D; [|reflexivity].
    cbn [List.length] in L. lia.
  - lia.
  - exact L.
  - intros r Hr. unfold App3.pdf_leads, sort_desc in Hr.
    apply head_In, sort_values_In in Hr. unfold dff in Hr.
    cbn [rows select] in Hr. apply filter_In in Hr. destruct Hr as [Hr G].
    split; [exact Hr|]. apply andb_true_iff in G. destruct G as [G _].
    unfold geo_ok in G. rewrite Euf, Ec in G. cbn [orb] in G.
    apply andb_true_iff in G. destruct G as [G1 G2].
    split; now apply cell_eqb_true.
Qed.

Lemma report_has_leads_of_the_city_witness :
  exists pdf,
    report3 Scenario.two_portes Scenario.city_all = Some pdf /\
    pick_uf Scenario.city_all <> "Todos"%string.
Proof.
  assert (E : report3 Scenario.two_portes Scenario.city_all
              = Some (generate_pdf3
                        (fst (fst (App3.sidebar_filters Scenario.two_portes
                                     Scenario.city_all)))))
    by reflexivity.
  eexists. split; [exact E|].
  apply (report_has_leads_of_the_city _ _ _ E).
Defined.

(** ** Median capital *)

Lemma asc_sorted (col : Series) : StronglySorted Rle (sort_values Rltb col).
Proof.
  apply sort_values_sorted.
  - intros a b H. apply Rltb_true in H. lra.
  - intros a b H. now apply Rltb_false in H.
  - intros a b c. lra.
Qed.

Lemma sorted_nth (s : Series) (i j : nat) :
  StronglySorted Rle s -> (i <= j < List.length s)%nat ->
  nth i s 0 <= nth j s 0.
Proof.
  intros Hs. revert i j. induction Hs as [|x tl Hs IH Hx]; intros i j [H1 H2].
  - simpl in H2. lia.
  - destruct i as [|i], j as [|j]; simpl in *; try lia; try lra.
    + rewrite Forall_forall in Hx. apply Hx. apply nth_In. lia.
    + apply IH. lia.
Qed.

Lemma filter_all {A : Type} (p : A -> bool) (l : list A) :
  Forall (fun x => p x = true) l -> filter p l = l.
Proof.
  induction 1 as [|x tl Hx _ IH]; [reflexivity|]. simpl. now rewrite Hx, IH.
Qed.

Lemma count_from_prefix {A : Type} (p : A -> bool) (k : nat) (l : list A) :
  Forall (fun x => p x = true) (firstn k l) ->
  (Nat.min k (List.length l) <= List.length (filter p l))%nat.
Proof.
  intros H. rewrite <- (firstn_skipn k l) at 2.
  rewrite filter_app, length_app, (filter_all p _ H), length_firstn. lia.
Qed.

Lemma count_from_suffix {A : Type} (p : A -> bool) (k : nat) (l : list A) :
  Forall (fun x => p x = true) (skipn k l) ->
  (List.length l - k <= List.length (filter p l))%nat.
Proof.
  intros H. rewrite <- (firstn_skipn k l) at 2.
  rewrite filter_app, length_app, (filter_all p _ H), length_skipn. lia.
Qed.

Lemma firstn_nth_In (s : Series) (k : nat) (x : R) :
  In x (firstn k s) ->
  exists i, (i < k)%nat /\ (i < List.length s)%nat /\ nth i s 0 = x.
Proof.
  revert k. induction s as [|a tl IH]; intros k H.
  - now rewrite firstn_nil in H.
  - destruct k as [|k]; [easy|]. simpl in H. destruct H as [<-|H].
    + exists 0%nat. simpl. repeat split; lia.
    + destruct (IH k H) as [i [H1 [H2 H3]]]. exists (S i). simpl.
      repeat split; try lia. exact H3.
Qed.

Lemma skipn_nth_In (s : Series) (k : nat) (x : R) :
  In x (skipn k s) ->
  exists i, (k <= i)%nat /\ (i < List.length s)%nat /\ nth i s 0 = x.
Proof.
  revert k. induction s as [|a tl IH]; intros k H.
  - now rewrite skipn_nil in H.
  - destruct k as [|k].
    + rewrite skipn_O in H. apply In_nth with (d := 0) in H.
      destruct H as [i [H1 H2]]. exists i. repeat split; try lia. exact H2.
    + simpl in H. destruct (IH k H) as [i [H1 [H2 H3]]]. exists (S i). simpl.
      repeat split; try lia. exact H3.
Qed.

Lemma filter_length_perm {A : Type} (p : A -> bool) (l l' : list A) :
  Permutation l l' -> List.length (filter p l) = List.length (filter p l').
Proof.
  induction 1 as [|x l l' _ IH|x y l|l l' l'' _ IH1 _ IH2]; simpl.
  - reflexivity.
  - destruct (p x); simpl; now rewrite IH.
  - destruct (p x), (p y); reflexivity.
  - congruence.
Qed.

(** The two halves around a value that sits between positions [i] and [j]
    of the sorted column. *)
Lemma halves_around (s : Series) (i j : nat) (m : R) :
  StronglySorted Rle s ->
  (i <= j < List.length s)%nat ->
  nth i s 0 <= m <= nth j s 0 ->
  (i + 1 <= List.length (filter (at_most m) s))%nat /\
  (List.length s - j <= List.length (filter (at_least m) s))%nat.
Proof.
  intros Hs Hij [Hi Hj]. split.
  - assert (H : Forall (fun x => at_most m x = true) (firstn (i + 1) s)).
    { apply Forall_forall. intros x Hx. apply firstn_nth_In in Hx.
      destruct Hx as [a [H1 [H2 <-]]]. unfold at_most.
      apply negb_true_iff, Rltb_false.
      pose proof (sorted_nth s a i Hs ltac:(lia)). lra. }
    apply count_from_prefix in H. lia.
  - assert (H : Forall (fun x => at_least m x = true) (skipn j s)).
    { apply Forall_forall. intros x Hx. apply skipn_nth_In in Hx.
      destruct Hx as [a [H1 [H2 <-]]]. unfold at_least.
      apply negb_true_iff, Rltb_false.
      pose proof (sorted_nth s j a Hs ltac:(lia)). lra. }
    now apply count_from_suffix in H.
Qed.

Lemma series_median_halves (col : Series) (m : R) :
  series_median col = Some m ->
  (List.length col <= 2 * List.length (filter (at_most m) col))%nat /\
  (List.length col <= 2 * List.length (filter (at_least m) col))%nat /\
  (forall lo hi, Forall (fun x => lo <= x <= hi) col -> lo <= m <= hi).
Proof.
  unfold series_median.
  pose proof (asc_sorted col) as Hs.
  pose proof (sort_values_perm Rltb col) as P.
  rewrite <- (filter_length_perm (at_most m) _ _ P).
  rewrite <- (filter_length_perm (at_least m) _ _ P).
  rewrite <- (Permutation_length P).
  remember (sort_values Rltb col) as s eqn:Es.
  remember (List.length s) as n eqn:En.
  assert (B : forall lo hi i, Forall (fun x => lo <= x <= hi) col ->
                (i < n)%nat -> lo <= nth i s 0 <= hi).
  { intros lo hi i H Hi. rewrite Forall_forall in H. apply H.
    apply (Permutation_in _ P). apply nth_In. lia. }
  destruct (Nat.eq_dec n 0) as [Z0|NZ]; [now rewrite Z0|].
  assert (M : (if Nat.even n
               then Some ((nth (n / 2 - 1) s 0 + nth (n / 2) s 0) / 2)
               else Some (nth (n / 2) s 0)) = Some m ->
              (n <= 2 * List.length (filter (at_most m) s))%nat /\
              (n <= 2 * List.length (filter (at_least m) s))%nat /\
              (forall lo hi, Forall (fun x => lo <= x <= hi) col ->
                             lo <= m <= hi)).
  { destruct (Nat.even n) eqn:Ev.
    - intros H.
      assert (Em : m = (nth (n / 2 - 1) s 0 + nth (n / 2) s 0) / 2)
        by congruence.
      clear H. apply Nat.even_spec in Ev. destruct Ev as [k Hk].
      assert (Hd : (n / 2 = k)%nat).
      { rewrite Hk, Nat.mul_comm. apply Nat.div_mul. lia. }
      rewrite Hd in Em.
      assert (O12 : nth (k - 1) s 0 <= nth k s 0).
      { apply sorted_nth; [exact Hs | lia]. }
      destruct (halves_around s (k - 1) k m Hs) as [H1 H2];
        [lia | lra |].
      split; [lia|]. split; [lia|]. intros lo hi H.
      pose proof (B lo hi (k - 1)%nat H ltac:(lia)).
      pose proof (B lo hi k H ltac:(lia)). lra.
    - intros H.
      assert (Em : m = nth (n / 2) s 0) by congruence. clear H.
      assert (Od : Nat.odd n = true).
      { rewrite <- Nat.negb_even. now rewrite Ev. }
      apply Nat.odd_spec in Od. destruct Od as [k Hk].
      assert (Hd : (n / 2 = k)%nat).
      { rewrite Hk. rewrite Nat.mul_comm, Nat.add_comm.
        rewrite Nat.div_add by lia. reflexivity. }
      rewrite Hd in Em.
      destruct (halves_around s k k m Hs) as [H1 H2]; [lia | lra |].
      split; [lia|]. split; [lia|]. intros lo hi H.
      rewrite Em. apply B; [exact H | lia]. }
  destruct n as [|n']; [contradiction | exact M].
Qed.

Lemma series_median_none (col : Series) :
  series_median col = None <-> col = [].
Proof.
  unfold series_median. rewrite sort_values_length.
  destruct col as [|x tl]; [easy|]. cbn [List.length].
  destruct (Nat.even _); split; intros; discriminate.
Qed.

(** X21 — The median capital of a frame is undefined exactly when the
    frame is empty; otherwise at least half of the records have a capital
    not above it, at least half have a capital not below it, and it lies
    between any bounds that hold for all capitals. *)
Theorem median_capital_splits (df : DataFrame) :
  (mediana_cap df = None <-> rows df = []) /\
  (forall m, mediana_cap df = Some m ->
     (List.length (rows df)
      <= 2 * List.length (filter (fun r => at_most m (capital_social r))
                            (rows df)))%nat /\
     (List.length (rows df)
      <= 2 * List.length (filter (fun r => at_least m (capital_social r))
                            (rows df)))%nat /\
     (forall lo hi,
         (forall r, In r (rows df) -> lo <= capital_social r <= hi) ->
         lo <= m <= hi)).
Proof.
  unfold mediana_cap. split.
  - rewrite series_median_none. split; intros H.
    + now apply map_eq_nil in H.
    + now rewrite H.
  - intros m H. apply series_median_halves in H.
    destruct H as [H1 [H2 H3]].
    rewrite !filter_map_comm, !length_map in H1, H2.
    split; [exact H1|]. split; [exact H2|].
    intros lo hi Hb. apply H3. apply Forall_forall. intros v Hv.
    apply in_map_iff in Hv. destruct Hv as [r [<- Hr]]. now apply Hb.
Qed.

Lemma median_capital_splits_witness :
  (List.length (rows Scenario.null_city)
   <= 2 * List.length (filter (fun r => at_most 1000 (capital_social r))
                         (rows Scenario.null_city)))%nat.
Proof.
  apply (proj2 (median_capital_splits Scenario.null_city) 1000 eq_refl).
Defined.

(** ** The view of the first tab *)

Lemma tab1_3_kind (df dff : DataFrame) (w : Widgets) :
  view_matches w (App3.tab1 df dff (fst (selection w)) (snd (selection w))).
Proof.
  unfold App3.tab1, selection. cbn [fst snd].
  destruct (String.eqb (pick_uf w) "Todos") eqn:Eu.
  - rewrite String.eqb_refl. cbn. now apply String.eqb_eq.
  - apply String.eqb_neq in Eu.
    destruct (String.eqb (pick_cidade w) "Todas") eqn:Ec; cbn.
    + apply String.eqb_eq in Ec. now split.
    + apply String.eqb_neq in Ec. now split.
Qed.

Lemma tab1_4_kind (df dff : DataFrame) (w : Widgets) (t : Tab1 HubRow HubRow) :
  App4.tab1 df dff (fst (selection w)) (snd (selection w)) = Ok t ->
  view_matches w t.
Proof.
  unfold App4.tab1, selection. cbn [fst snd].
  destruct (String.eqb (pick_uf w) "Todos") eqn:Eu.
  - rewrite String.eqb_refl. cbn [andb].
    destruct (App4.expansion_data df); cbn [bind]; [|discriminate].
    intros [= <-]. now apply String.eqb_eq.
  - apply String.eqb_neq in Eu.
    destruct (String.eqb (pick_cidade w) "Todas") eqn:Ec; cbn [andb negb].
    + destruct (App4.city_matrix dff); cbn [bind]; [|discriminate].
      intros [= <-]. apply String.eqb_eq in Ec. now split.
    + destruct (peers_high_ticket _ _ _); cbn [bind]; [|discriminate].
      intros [= <-]. apply String.eqb_neq in Ec. now split.
Qed.

Lemma tab1_5_kind (df dff : DataFrame) (w : Widgets) (t : Tab1 CityRow HubRow) :
  App5.tab1 df dff (fst (selection w)) (snd (selection w)) = Ok t ->
  view_matches w t.
Proof.
  unfold App5.tab1, selection. cbn [fst snd].
  destruct (String.eqb (pick_uf w) "Todos") eqn:Eu.
  - rewrite String.eqb_refl. cbn [andb].
    destruct (App5.expansion_data df); cbn [bind]; [|discriminate].
    intros [= <-]. now apply String.eqb_eq.
  - apply String.eqb_neq in Eu.
    destruct (String.eqb (pick_cidade w) "Todas") eqn:Ec; cbn [andb negb].
    + destruct (App5.city_matrix dff); cbn [bind]; [|discriminate].
      intros [= <-]. apply String.eqb_eq in Ec. now split.
    + destruct (peers_high_ticket _ _ _); cbn [bind]; [|discriminate].
      intros [= <-]. apply String.eqb_neq in Ec. now split.
Qed.

(** X22 — The view of the first tab follows the selection, in the three
    dashboards: the national ranking is shown only when the state is
    "Todos" (whatever city was picked before), the state matrix only for a
    state with city "Todas", and the peer view only for a state with a
    city. *)
Theorem view_follows_selection (df : DataFrame) (w : Widgets) :
  (forall t, shown3 (App3.main df w) = Some (Ok t) -> view_matches w t) /\
  (forall t, shown4 (App4.main df w) = Some (Ok t) -> view_matches w t) /\
  (forall t, shown5 (App5.main df w) = Some (Ok t) -> view_matches w t).
Proof.
  split; [|split]; intros t.
  - unfold App3.main. rewrite sidebar3_spec. cbn [fst snd].
    set (dff := select _ df). destruct (empty dff); [discriminate|].
    destruct (kpi_total _ _ (perc_ltda_ok dff)) as [p ->].
    cbn [shown3 option_map bind App3.view_tab1].
    intros [= <-]. apply tab1_3_kind.
  - unfold App4.main. rewrite sidebar4_spec. cbn [fst snd].
    set (dff := select _ df). destruct (empty dff); [discriminate|].
    destruct (kpi_total _ _ (high_ticket_perc_ok dff)) as [p ->].
    destruct (kpi_total _ _ (ouro_perc_ok dff)) as [q ->].
    cbn [shown4 option_map bind].
    destruct (App4.tab1 df dff _ _) as [t'|] eqn:T; cbn [bind App4.view_tab1];
      [|discriminate].
    intros [= <-]. now apply (tab1_4_kind df dff).
  - unfold App5.main. rewrite sidebar5_spec. cbn [fst snd].
    set (dff := select _ df). destruct (empty dff); [discriminate|].
    destruct (kpi_total _ _ (alto_risco_perc_ok dff)) as [p ->].
    destruct (kpi_total _ _ (high_ticket_perc_ok dff)) as [q ->].
    cbn [shown5 option_map bind].
    destruct (App5.tab1 df dff _ _) as [t'|] eqn:T; cbn [bind App5.view_tab1];
      [|discriminate].
    intros [= <-]. now apply (tab1_5_kind df dff).
Qed.
